(** * PyGaze, Tobii Pro Glasses tracker ([pygaze/_eyetracker/libtobiiglasses.py])

    A shallow embedding of the sample validator, the event correlator, the
    angular velocity estimator, the fixation and saccade detectors and the
    recording guards of [TobiiGlassesTracker], with the properties the
    specification states about them.

    Conventions of the embedding.
    - Python numbers are an abstract type [num] with the operations the
      source applies to them (class [PyNum]); binary64 floats are an
      instance, used to run the definitions.
    - A sample is the dictionary the source builds: one coordinate key
      (['gp'], ['gp3'] or ['pc']) with a list of numbers, ['ts'] and ['gidx'].
    - Methods of the tracker object are computations over a [World]: the
      attributes of [self], the feeds of the tracker link and of the clock,
      and the messages written so far.  A feed is the finite list of values
      the successive calls deliver; a [while] loop is unrolled [fuel] times,
      and a call that has not returned when the fuel or a feed is used up is
      [Pending].
    - The thresholds [pxfixtresh], [pxdsttresh], [pxspdtresh] and
      [pxacctresh] are read by the detectors and assigned nowhere in the
      file; they are fields of the configuration [Config].
    - The experimental fixation detector is given its eye position source
      [eye_position] as a parameter.
    - Blocks are read by their indentation, as Python reads them. *)

From Stdlib Require Import ZArith List String Bool Lia Arith DecimalString.
From Stdlib Require Import Floats.PrimFloat Numbers.Cyclic.Int63.Uint63.
Import ListNotations.
Local Open Scope string_scope.

(** ** Python exceptions and results *)

Inductive exn : Type :=
| IndexError
| KeyError (key : string)
| TypeError
| ValueError
| ZeroDivisionError
| AttributeError (name : string)
| UnboundLocalError (name : string)
| LinkError
| Exception (msg : string).

Inductive res (A : Type) : Type :=
| Ok (a : A)
| Err (e : exn).
Arguments Ok {A} a.
Arguments Err {A} e.

Definition res_bind {A B : Type} (r : res A) (k : A -> res B) : res B :=
  match r with
  | Ok a => k a
  | Err e => Err e
  end.

Declare Scope res_scope.
Delimit Scope res_scope with res.
Notation "'let?' x ':=' r 'in' k" := (res_bind r (fun x => k))
  (at level 10, x name, r at level 100, k at level 200) : res_scope.

(** ** Numbers *)

(** The operations of Python numbers the source uses.  [n_div] is [/] on
    Python numbers, which raises on a zero divisor; [n_quot] is [/] on numpy
    scalars, which does not; [n_pow2] is [x ** 2] and [n_root] is
    [x ** 0.5]. *)
Class PyNum (num : Type) : Type := {
  n_of_Z : Z -> num;
  n_add : num -> num -> num;
  n_sub : num -> num -> num;
  n_mul : num -> num -> num;
  n_div : num -> num -> res num;
  n_quot : num -> num -> num;
  n_pow2 : num -> num;
  n_root : num -> num;
  n_abs : num -> num;
  n_eqb : num -> num -> bool;
  n_ltb : num -> num -> bool;
  n_leb : num -> num -> bool
}.

(** [numpy.arccos] and [numpy.degrees]. *)
Class NumPy (num : Type) : Type := {
  np_arccos : num -> num;
  np_degrees : num -> num
}.

(** Python's comparison operators, written the way the source has them. *)
Definition n_gtb {num} `{PyNum num} (x y : num) : bool := n_ltb y x.
Definition n_geb {num} `{PyNum num} (x y : num) : bool := n_leb y x.

(** [l1 == l2] on lists of numbers: same length and equal elements. *)
Fixpoint list_eq {num} `{PyNum num} (l1 l2 : list num) : bool :=
  match l1, l2 with
  | [], [] => true
  | x :: l1', y :: l2' => n_eqb x y && list_eq l1' l2'
  | _, _ => false
  end.

(** [l[i]] on a list. *)
Definition index {A : Type} (l : list A) (i : nat) : res A :=
  match nth_error l i with
  | Some x => Ok x
  | None => Err IndexError
  end.

(** [l[-1]] on a list. *)
Definition index_last {A : Type} (l : list A) : res A :=
  match rev l with
  | x :: _ => Ok x
  | [] => Err IndexError
  end.

(** ** Samples, tracker link and tracker object *)

Inductive LogEntry : Type :=
| LogError (msg : string)
| LogDebug (msg : string)
| Printed (msg : string).

(** The calls made on the tracker link by the recording operations. *)
Inductive LinkCall : Type :=
| CreateRecording (participant : option string)
| StartRecording (recording : string)
| StopRecording (recording : string)
| WaitUntilRecordingIsDone (recording : string).

Section Tracker.

Context {num : Type} `{PyNum num} `{NumPy num}.

(** A sample dictionary [{key: coords, 'ts': ts, 'gidx': gidx}]. *)
Record Sample : Type := mkSample {
  s_key : string;
  s_coords : list num;
  s_ts : num;
  s_gidx : Z
}.

(** What a sampling method returns: a dictionary, or [None] when the
    tracker is not streaming. *)
Inductive pyval : Type :=
| PNone
| PDict (s : Sample).

(** What the link holds when [get_gp()] and the like are called: a record
    with its coordinate, ['ts'] and ['gidx'] entries, or data whose
    subscripting raises. *)
Inductive RawData : Type :=
| Data (coords : list num) (ts : num) (gidx : Z)
| NoData (e : exn).

(** Answers of the tracker link to the recording calls. *)
Record Link : Type := mkLink {
  create_recording : option string -> res string;
  start_recording_rpc : string -> res unit;
  stop_recording_rpc : string -> res unit;
  wait_until_recording_is_done : string -> res bool
}.

Record Config : Type := mkConfig {
  pxfixtresh : num;
  fixtimetresh : num;
  pxdsttresh : num * num;
  pxspdtresh : num;
  pxacctresh : num;
  weightdist : num;
  velocity_threshold : num
}.

Record World : Type := mkWorld {
  (* tracker link and clock *)
  link : Link;
  streaming : bool;
  gp_feed : list RawData;
  gp3_feed : list RawData;
  clock_feed : list num;
  calls : list LinkCall;
  (* attributes of the tracker object *)
  cfg : Config;
  eventdetection : string;
  current_recording_id : option string;
  current_participant_id : option string;
  current_project_id : option string;
  init_run : bool;
  gaze_samples : list pyval;
  gp3_samples : list pyval;
  eye_samples : list pyval;
  (* messages of [log] and [print], oldest first *)
  logs : list LogEntry
}.

Inductive outcome (A : Type) : Type :=
| Ret (a : A) (w : World)
| Exc (e : exn) (w : World)
| Pending.
Arguments Ret {A} a w.
Arguments Exc {A} e w.
Arguments Pending {A}.

Definition M (A : Type) : Type := World -> outcome A.

Definition ret {A : Type} (a : A) : M A := fun w => Ret a w.
Definition raise {A : Type} (e : exn) : M A := fun w => Exc e w.
Definition pending {A : Type} : M A := fun _ => Pending.

Definition bind {A B : Type} (c : M A) (k : A -> M B) : M B :=
  fun w =>
    match c w with
    | Ret a w' => k a w'
    | Exc e w' => Exc e w'
    | Pending => Pending
    end.

Definition lift {A : Type} (r : res A) : M A :=
  match r with
  | Ok a => ret a
  | Err e => raise e
  end.

Declare Scope py_scope.
Delimit Scope py_scope with py.
Notation "x <- c ;; k" := (bind c (fun x => k))
  (at level 61, c at next level, right associativity) : py_scope.
Notation "c ;; k" := (bind c (fun _ => k))
  (at level 61, right associativity) : py_scope.
Local Open Scope py_scope.

(** Assignments to the fields of the world. *)
Definition set_gp_feed (v : list RawData) (w : World) : World :=
  mkWorld (link w) (streaming w) v (gp3_feed w) (clock_feed w) (calls w) (cfg w) (eventdetection w) (current_recording_id w) (current_participant_id w) (current_project_id w) (init_run w) (gaze_samples w) (gp3_samples w) (eye_samples w) (logs w).
Definition set_gp3_feed (v : list RawData) (w : World) : World :=
  mkWorld (link w) (streaming w) (gp_feed w) v (clock_feed w) (calls w) (cfg w) (eventdetection w) (current_recording_id w) (current_participant_id w) (current_project_id w) (init_run w) (gaze_samples w) (gp3_samples w) (eye_samples w) (logs w).
Definition set_clock_feed (v : list num) (w : World) : World :=
  mkWorld (link w) (streaming w) (gp_feed w) (gp3_feed w) v (calls w) (cfg w) (eventdetection w) (current_recording_id w) (current_participant_id w) (current_project_id w) (init_run w) (gaze_samples w) (gp3_samples w) (eye_samples w) (logs w).
Definition set_calls (v : list LinkCall) (w : World) : World :=
  mkWorld (link w) (streaming w) (gp_feed w) (gp3_feed w) (clock_feed w) v (cfg w) (eventdetection w) (current_recording_id w) (current_participant_id w) (current_project_id w) (init_run w) (gaze_samples w) (gp3_samples w) (eye_samples w) (logs w).
Definition set_eventdetection (v : string) (w : World) : World :=
  mkWorld (link w) (streaming w) (gp_feed w) (gp3_feed w) (clock_feed w) (calls w) (cfg w) v (current_recording_id w) (current_participant_id w) (current_project_id w) (init_run w) (gaze_samples w) (gp3_samples w) (eye_samples w) (logs w).
Definition set_current_recording_id (v : option string) (w : World) : World :=
  mkWorld (link w) (streaming w) (gp_feed w) (gp3_feed w) (clock_feed w) (calls w) (cfg w) (eventdetection w) v (current_participant_id w) (current_project_id w) (init_run w) (gaze_samples w) (gp3_samples w) (eye_samples w) (logs w).
Definition set_init_run (v : bool) (w : World) : World :=
  mkWorld (link w) (streaming w) (gp_feed w) (gp3_feed w) (clock_feed w) (calls w) (cfg w) (eventdetection w) (current_recording_id w) (current_participant_id w) (current_project_id w) v (gaze_samples w) (gp3_samples w) (eye_samples w) (logs w).
Definition set_gaze_samples (v : list pyval) (w : World) : World :=
  mkWorld (link w) (streaming w) (gp_feed w) (gp3_feed w) (clock_feed w) (calls w) (cfg w) (eventdetection w) (current_recording_id w) (current_participant_id w) (current_project_id w) (init_run w) v (gp3_samples w) (eye_samples w) (logs w).
Definition set_gp3_samples (v : list pyval) (w : World) : World :=
  mkWorld (link w) (streaming w) (gp_feed w) (gp3_feed w) (clock_feed w) (calls w) (cfg w) (eventdetection w) (current_recording_id w) (current_participant_id w) (current_project_id w) (init_run w) (gaze_samples w) v (eye_samples w) (logs w).
Definition set_eye_samples (v : list pyval) (w : World) : World :=
  mkWorld (link w) (streaming w) (gp_feed w) (gp3_feed w) (clock_feed w) (calls w) (cfg w) (eventdetection w) (current_recording_id w) (current_participant_id w) (current_project_id w) (init_run w) (gaze_samples w) (gp3_samples w) v (logs w).
Definition set_logs (v : list LogEntry) (w : World) : World :=
  mkWorld (link w) (streaming w) (gp_feed w) (gp3_feed w) (clock_feed w) (calls w) (cfg w) (eventdetection w) (current_recording_id w) (current_participant_id w) (current_project_id w) (init_run w) (gaze_samples w) (gp3_samples w) (eye_samples w) v.

Definition log_error (msg : string) : M unit :=
  fun w => Ret tt (set_logs (logs w ++ [LogError msg]) w).
Definition log_debug (msg : string) : M unit :=
  fun w => Ret tt (set_logs (logs w ++ [LogDebug msg]) w).
Definition print (msg : string) : M unit :=
  fun w => Ret tt (set_logs (logs w ++ [Printed msg]) w).

(** [self.tobiiglasses.is_streaming()], [get_gp()], [get_gp3()] and
    [clock.get_time()]: each call of the last three takes the next value of
    its feed. *)
Definition is_streaming : M bool := fun w => Ret (streaming w) w.

Definition get_gp : M RawData :=
  fun w =>
    match gp_feed w with
    | [] => Pending
    | d :: rest => Ret d (set_gp_feed rest w)
    end.

Definition get_gp3 : M RawData :=
  fun w =>
    match gp3_feed w with
    | [] => Pending
    | d :: rest => Ret d (set_gp3_feed rest w)
    end.

Definition clock_get_time : M num :=
  fun w =>
    match clock_feed w with
    | [] => Pending
    | t :: rest => Ret t (set_clock_feed rest w)
    end.

Definition minus_one : num := n_of_Z (-1).

(** The dictionaries [sample], [sample3D] and [eye_position] build when no
    data is available. *)
Definition sentinel_sample (key : string) (coords : list num) : Sample :=
  mkSample key coords minus_one (-1).
Definition sentinel_gp : list num := [minus_one; minus_one].
Definition sentinel_gp3 : list num := [minus_one; minus_one; minus_one].
Definition sentinel_pc : list num := [minus_one; minus_one; minus_one].

(** The [try] statement shared by [sample] and [sample3D]: the dictionary
    is built from the subscripts of [data]; an [IndexError] is logged and
    binds the sentinel dictionary; [finally: return data_dict] then returns
    the binding, and raises when another exception left the name unbound. *)
Definition read_or_sentinel (key : string) (sentinel : list num)
    (msg : string) (data : RawData) : M pyval :=
  data_dict <-
    match data with
    | Data coords ts gidx => ret (Some (mkSample key coords ts gidx))
    | NoData IndexError =>
        log_error msg ;; ret (Some (sentinel_sample key sentinel))
    | NoData _ => ret None
    end ;;
  match data_dict with
  | Some d => ret (PDict d)
  | None => raise (UnboundLocalError "data_dict")
  end.

Definition sample : M pyval :=
  s <- is_streaming ;;
  if s then
    data <- get_gp ;;
    read_or_sentinel "gp" sentinel_gp "No gaze position data available." data
  else
    log_error "The eye-tracker is not in capturing mode." ;; ret PNone.

Definition sample3D : M pyval :=
  s <- is_streaming ;;
  if s then
    data <- get_gp3 ;;
    read_or_sentinel "gp3" sentinel_gp3
      "No gaze 3d position data available." data
  else
    log_error "The eye-tracker is not in capturing mode." ;; ret PNone.

(** The dictionary [sample] returns for a datum of the link, when it
    returns one. *)
Definition delivered_gp (r : RawData) : option Sample :=
  match r with
  | Data coords ts gidx => Some (mkSample "gp" coords ts gidx)
  | NoData IndexError => Some (sentinel_sample "gp" sentinel_gp)
  | NoData _ => None
  end.

(** A 2D gaze dictionary whose coordinates are not the sentinel. *)
Definition gp_valid (s : Sample) : bool :=
  negb (list_eq (s_coords s) sentinel_gp).

(** [sample[key]] for a coordinate key, [sample['ts']] and
    [sample['gidx']]. *)
Definition getitem (v : pyval) (key : string) : res (list num) :=
  match v with
  | PNone => Err TypeError
  | PDict s => if String.eqb key (s_key s) then Ok (s_coords s)
               else Err (KeyError key)
  end.

Definition get_ts (v : pyval) : res num :=
  match v with
  | PNone => Err TypeError
  | PDict s => Ok (s_ts s)
  end.

Definition get_gidx (v : pyval) : res Z :=
  match v with
  | PNone => Err TypeError
  | PDict s => Ok (s_gidx s)
  end.

Definition is_valid_sample (sample : pyval) (sample_type : string) : M bool :=
  if String.eqb sample_type "gp3" then
    v <- lift (getitem sample "gp3") ;;
    if list_eq v sentinel_gp3 then ret false else ret true
  else if String.eqb sample_type "gp" then
    v <- lift (getitem sample "gp") ;;
    if list_eq v sentinel_gp then ret false else ret true
  else if String.eqb sample_type "pc" then
    v <- lift (getitem sample "pc") ;;
    if list_eq v sentinel_pc then ret false else ret true
  else
    log_error ("The supplied sample type " ++ sample_type
               ++ " is not supported.") ;;
    ret true.

(** [all(gaze['gidx'] == gp3['gidx'] == eye['gidx'] for ... in zip(...))]:
    the triples are visited in order until one fails or a sequence ends. *)
Fixpoint is_same_event (gaze_samples gp3_samples eye_samples : list pyval)
    : res bool :=
  match gaze_samples, gp3_samples, eye_samples with
  | gaze :: gazes, gp3 :: gp3s, eye :: eyes =>
      (let? g := get_gidx gaze in
       let? p := get_gidx gp3 in
       if Z.eqb g p then
         let? e := get_gidx eye in
         if Z.eqb p e then is_same_event gazes gp3s eyes else Ok false
       else Ok false)%res
  | _, _, _ => Ok true
  end.

(** ** Angular velocity *)

(** [numpy.array(u) - numpy.array(v)]: element by element, a one-element
    array being broadcast; other shapes do not match. *)
Definition np_sub (u v : list num) : res (list num) :=
  if Nat.eqb (List.length u) (List.length v) then
    Ok (map (fun xy => n_sub (fst xy) (snd xy)) (combine u v))
  else
    match u, v with
    | [x], _ => Ok (map (fun y => n_sub x y) v)
    | _, [y] => Ok (map (fun x => n_sub x y) u)
    | _, _ => Err ValueError
    end.

(** [numpy.linalg.norm]. *)
Definition np_norm (v : list num) : num :=
  n_root (fold_left n_add (map n_pow2 v) (n_of_Z 0)).

(** Attribute lookup in Python's [math] module, for the functions the class
    [PyNum] has a counterpart of.  The module provides the absolute value
    as [fabs]; it has no attribute [abs]. *)
Definition math_getattr (name : string) : res (num -> num) :=
  if String.eqb name "fabs" then Ok n_abs
  else if String.eqb name "sqrt" then Ok n_root
  else if String.eqb name "acos" then Ok np_arccos
  else if String.eqb name "degrees" then Ok np_degrees
  else Err (AttributeError name).

Definition calculate_angular_velocity (gp3_samples eye_samples : list pyval)
    : res num :=
  (let? g0 := index gp3_samples 0 in
   let? g0c := getitem g0 "gp3" in
   let? e0 := index eye_samples 0 in
   let? e0c := getitem e0 "pc" in
   let? a := np_sub g0c e0c in
   let? gl := index_last gp3_samples in
   let? glc := getitem gl "gp3" in
   let? el := index_last eye_samples in
   let? elc := getitem el "pc" in
   let? b := np_sub glc elc in
   let? c := np_sub glc g0c in
   (* convert to norm/magnitude of vectors *)
   let a := np_norm a in
   let b := np_norm b in
   let c := np_norm c in
   (* angle in degrees *)
   let angle :=
     np_degrees (np_arccos
       (n_quot (n_sub (n_add (n_pow2 a) (n_pow2 b)) (n_pow2 c))
               (n_mul (n_mul (n_of_Z 2) a) b))) in
   let? tl := get_ts gl in
   let? t0 := get_ts g0 in
   let time_diff := n_sub tl t0 in
   let? math_abs := math_getattr "abs" in
   Ok (math_abs (n_quot angle time_diff)))%res.

(** [numpy.median] of a list: the middle of the sorted values, or the mean
    of the two middle ones. *)
Fixpoint insert_sorted (x : num) (l : list num) : list num :=
  match l with
  | [] => [x]
  | y :: l' => if n_ltb y x then y :: insert_sorted x l' else x :: y :: l'
  end.

Definition np_median (l : list num) : num :=
  let sorted := fold_right insert_sorted [] l in
  let n := List.length l in
  let zero := n_of_Z 0 in
  if Nat.even n then
    n_quot (n_add (nth (n / 2 - 1) sorted zero) (nth (n / 2) sorted zero))
           (n_of_Z 2)
  else nth (n / 2) sorted zero.

(** ** Detection type *)

Definition set_detection_type (requested : string)
    : M (string * string * string) :=
  (if String.eqb requested "native" then
     print "WARNING! 'native' event detection has been selected, but Tobii does not provide detection algorithms; PyGaze algorithm will be used instead"
   else ret tt) ;;
  (fun w => Ret tt (set_eventdetection "pygaze" w)) ;;
  fun w => Ret (eventdetection w, eventdetection w, eventdetection w) w.

(** ** Fixation detection *)

(** The dictionaries the fixation detectors return. *)
Inductive FixResult : Type :=
| FixStart (ts : num) (spos : pyval)
| FixStartExp (ts : num) (gaze_pos : list num) (gp3 : list num)
| FixEnd (fixation_time : num) (gaze_pos : pyval)
| FixEndExp (fixation_time : num) (gaze_pos : pyval) (gp3 : list num).

Definition result_ts (d : FixResult) : res num :=
  match d with
  | FixStart ts _ | FixStartExp ts _ _ => Ok ts
  | _ => Err (KeyError "ts")
  end.

Definition result_spos (d : FixResult) : res pyval :=
  match d with
  | FixStart _ spos => Ok spos
  | _ => Err (KeyError "spos")
  end.

Definition result_gaze_pos (d : FixResult) : res (list num) :=
  match d with
  | FixStartExp _ gaze_pos _ => Ok gaze_pos
  | _ => Err (KeyError "gaze_pos")
  end.

Definition result_gp3 (d : FixResult) : res (list num) :=
  match d with
  | FixStartExp _ _ gp3 => Ok gp3
  | _ => Err (KeyError "gp3")
  end.

(** [(npos['gp'][0]-spos['gp'][0])**2 + (npos['gp'][1]-spos['gp'][1])**2
     > self.pxfixtresh**2] *)
Definition too_far (c : Config) (npos spos : pyval) : res bool :=
  (let? n := getitem npos "gp" in
   let? n0 := index n 0 in
   let? s := getitem spos "gp" in
   let? s0 := index s 0 in
   let? n1 := index n 1 in
   let? s1 := index s 1 in
   Ok (n_gtb (n_add (n_pow2 (n_sub n0 s0)) (n_pow2 (n_sub n1 s1)))
             (n_pow2 (pxfixtresh c))))%res.

(** Data of the link as a polling loop sees them.  [polls_invalid r]: the
    dictionary [sample] returns for [r] is the sentinel.  [polls_valid r]
    tells whether it is a valid one.  [holds_anchor c spos r]: the
    dictionary is invalid, or valid and not too far from the anchor
    [spos]. *)
Definition polls_invalid (r : RawData) : Prop :=
  exists s, delivered_gp r = Some s /\ gp_valid s = false.

Definition polls_valid (r : RawData) : bool :=
  match delivered_gp r with
  | Some s => gp_valid s
  | None => false
  end.

Definition holds_anchor (c : Config) (spos : pyval) (r : RawData) : Prop :=
  exists s, delivered_gp r = Some s /\
    (gp_valid s = false \/
     (gp_valid s = true /\ too_far c (PDict s) spos = Ok false)).

(** [t1 - t0 >= self.fixtimetresh] *)
Definition held_long_enough (c : Config) (t0 t1 : num) : bool :=
  n_geb (n_sub t1 t0) (fixtimetresh c).

(** The warning the detectors print when [self.eventdetection] is
    ['native'].  The messages are given without the blanks that the line
    continuations of the source leave inside them. *)
Definition warn_native (msg : string) : M unit :=
  fun w =>
    if String.eqb (eventdetection w) "native" then print msg w else Ret tt w.

(** [while not self.is_valid_sample(pos, 'gp'): pos = self.sample()] *)
Fixpoint wait_valid_gp (fuel : nat) (pos : pyval) : M pyval :=
  match fuel with
  | O => pending
  | S fuel' =>
      valid <- is_valid_sample pos "gp" ;;
      if valid then ret pos
      else pos' <- sample ;; wait_valid_gp fuel' pos'
  end.

(** The loop [while moving] of the PyGaze method, from the anchor [spos]
    taken at [t0]. *)
Fixpoint fixation_start_loop (fuel : nat) (spos : pyval) (t0 : num)
    : M FixResult :=
  match fuel with
  | O => pending
  | S fuel' =>
      npos <- sample ;;
      valid <- is_valid_sample npos "gp" ;;
      if valid then
        far <- (fun w => lift (too_far (cfg w) npos spos) w) ;;
        if far then
          t0' <- clock_get_time ;;
          fixation_start_loop fuel' npos t0'
        else
          t1 <- clock_get_time ;;
          above <- (fun w => Ret (held_long_enough (cfg w) t0 t1) w) ;;
          if above then ret (FixStart t0 spos)
          else fixation_start_loop fuel' spos t0
      else fixation_start_loop fuel' spos t0
  end.

Definition fixation_start_pygaze (fuel : nat) : M FixResult :=
  spos <- sample ;;
  spos <- wait_valid_gp fuel spos ;;
  t0 <- clock_get_time ;;
  fixation_start_loop fuel spos t0.

(** [for sample in samples: sample[key][i]] *)
Fixpoint column (samples : list pyval) (key : string) (i : nat)
    : res (list num) :=
  match samples with
  | [] => Ok []
  | sample :: rest =>
      (let? c := getitem sample key in
       let? x := index c i in
       let? xs := column rest key i in
       Ok (x :: xs))%res
  end.

(** The experimental detector calls [is_same_event(...)] and
    [self.calculate_angular_velocity(...)]; both are read as calls of the
    definitions of these names in the file. *)
Definition windows_same_event : M bool :=
  fun w =>
    lift (is_same_event (gaze_samples w) (gp3_samples w) (eye_samples w)) w.

Definition windows_angular_velocity : M num :=
  fun w =>
    lift (calculate_angular_velocity (gp3_samples w) (eye_samples w)) w.

Section Experimental.

(** The experimental detector takes its eye samples from
    [self.eye_position()]; the method is a parameter here, any computation
    that delivers the eye sample of the round. *)
Variable eye_position : M pyval.

Definition fetch_samples : M (pyval * pyval * pyval) :=
  gaze_pos <- sample ;;
  spos <- sample3D ;;
  eye <- eye_position ;;
  ret (gaze_pos, spos, eye).

(** [while not self.is_valid_sample(gaze_pos, 'gp') and
           not self.is_valid_sample(spos, 'gp3') and
           not self.is_valid_sample(eye_position, 'pc'):] fetch again.
    The conjunction stops at its first false operand. *)
Fixpoint retry_fetch (fuel : nat) (t : pyval * pyval * pyval)
    : M (pyval * pyval * pyval) :=
  match fuel with
  | O => pending
  | S fuel' =>
      let '(gaze_pos, spos, eye) := t in
      v_gp <- is_valid_sample gaze_pos "gp" ;;
      if v_gp then ret t
      else
        v_gp3 <- is_valid_sample spos "gp3" ;;
        if v_gp3 then ret t
        else
          v_pc <- is_valid_sample eye "pc" ;;
          if v_pc then ret t
          else t' <- fetch_samples ;; retry_fetch fuel' t'
  end.

Definition append_samples (t : pyval * pyval * pyval) : M unit :=
  fun w =>
    let '(gaze_pos, spos, eye) := t in
    Ret tt (set_eye_samples (eye_samples w ++ [eye])
             (set_gp3_samples (gp3_samples w ++ [spos])
               (set_gaze_samples (gaze_samples w ++ [gaze_pos]) w))).

(** [self.gaze_samples = self.gaze_samples[1:]] and the same for the other
    two windows. *)
Definition remove_oldest : M unit :=
  fun w =>
    Ret tt (set_eye_samples (tl (eye_samples w))
             (set_gp3_samples (tl (gp3_samples w))
               (set_gaze_samples (tl (gaze_samples w)) w))).

(** Fetch new samples, retry, append: returns the triple appended. *)
Definition fetch_and_append (fuel : nat) : M (pyval * pyval * pyval) :=
  t <- fetch_samples ;;
  t <- retry_fetch fuel t ;;
  append_samples t ;;
  ret t.

(** The loop of the initial run, [while len(self.gaze_samples) < 3 and
    len(self.gp3_samples) < 3 and len(self.eye_samples) < 3]. *)
Fixpoint fill_windows (fuel : nat) : M unit :=
  match fuel with
  | O => pending
  | S fuel' =>
      more <- (fun w => Ret (Nat.ltb (List.length (gaze_samples w)) 3
                             && Nat.ltb (List.length (gp3_samples w)) 3
                             && Nat.ltb (List.length (eye_samples w)) 3) w) ;;
      if more then
        (fun w => Ret tt (set_init_run false w)) ;;
        fetch_and_append fuel ;;
        fill_windows fuel'
      else ret tt
  end.

(** One update of the windows in [wait_for_fixation_start]: the initial
    fill, or evict and append. *)
Definition update_windows (fuel : nat) : M unit :=
  first <- (fun w => Ret (init_run w) w) ;;
  if first then fill_windows fuel
  else remove_oldest ;; fetch_and_append fuel ;; ret tt.

Fixpoint fixation_start_experimental (fuel : nat) : M FixResult :=
  match fuel with
  | O => pending
  | S fuel' =>
      update_windows fuel ;;
      same <- windows_same_event ;;
      if same then
        ang_vel <- windows_angular_velocity ;;
        below <- (fun w => Ret (n_ltb ang_vel (velocity_threshold (cfg w))) w) ;;
        if below then
          gps_x <- (fun w => lift (column (gaze_samples w) "gp" 0) w) ;;
          gps_y <- (fun w => lift (column (gaze_samples w) "gp" 1) w) ;;
          gp3s_x <- (fun w => lift (column (gp3_samples w) "gp3" 0) w) ;;
          gp3s_y <- (fun w => lift (column (gp3_samples w) "gp3" 1) w) ;;
          let gp_median := [np_median gps_x; np_median gps_y] in
          let gp3_median := [np_median gp3s_x; np_median gp3s_y] in
          ts <- (fun w => lift (res_bind (index (gaze_samples w) 1) get_ts) w) ;;
          ret (FixStartExp ts gp_median gp3_median)
        else fixation_start_experimental fuel'
      else fixation_start_experimental fuel'
  end.

Definition wait_for_fixation_start (experimental : bool) (fuel : nat)
    : M FixResult :=
  warn_native "WARNING! 'native' event detection has been selected, but Tobii does not offer fixation detection; other algorithm will be used" ;;
  if negb experimental then fixation_start_pygaze fuel
  else fixation_start_experimental fuel.

(** The loop of the PyGaze method of [wait_for_fixation_end]: it is left at
    the first valid sample too far from [spos]. *)
Fixpoint fixation_end_loop (fuel : nat) (spos : pyval) : M unit :=
  match fuel with
  | O => pending
  | S fuel' =>
      npos <- sample ;;
      valid <- is_valid_sample npos "gp" ;;
      if valid then
        far <- (fun w => lift (too_far (cfg w) npos spos) w) ;;
        if far then ret tt else fixation_end_loop fuel' spos
      else fixation_end_loop fuel' spos
  end.

Fixpoint fixation_end_experimental (fuel : nat) (stime : num)
    (gp3_pos : list num) : M FixResult :=
  match fuel with
  | O => pending
  | S fuel' =>
      remove_oldest ;;
      t <- fetch_and_append fuel ;;
      let '(gaze_pos, _, _) := t in
      same <- windows_same_event ;;
      if same then
        ang_vel <- windows_angular_velocity ;;
        ts <- (fun w => lift (res_bind (index (gaze_samples w) 1) get_ts) w) ;;
        let fixation_time := n_sub ts stime in
        ended <- (fun w =>
                    Ret (n_gtb ang_vel (velocity_threshold (cfg w))
                         && n_gtb fixation_time (fixtimetresh (cfg w))) w) ;;
        if ended then ret (FixEndExp fixation_time gaze_pos gp3_pos)
        else fixation_end_experimental fuel' stime gp3_pos
      else fixation_end_experimental fuel' stime gp3_pos
  end.

Definition wait_for_fixation_end (experimental : bool) (fuel : nat)
    : M FixResult :=
  warn_native "WARNING! 'native' event detection has been selected, but Tobii does not offer fixation detection; other algorithm will be used" ;;
  if negb experimental then
    data <- wait_for_fixation_start false fuel ;;
    stime <- lift (result_ts data) ;;
    spos <- lift (result_spos data) ;;
    fixation_end_loop fuel spos ;;
    now <- clock_get_time ;;
    ret (FixEnd now spos)
  else
    data <- wait_for_fixation_start true fuel ;;
    stime <- lift (result_ts data) ;;
    gaze_pos <- lift (result_gaze_pos data) ;;
    gp3_pos <- lift (result_gp3 data) ;;
    fixation_end_experimental fuel stime gp3_pos.

End Experimental.

(** ** Saccade detection *)

(** [self.is_valid_sample(newpos, 'gp') and newpos['gp'] != prevpos['gp']] *)
Definition valid_and_changed (newpos prevpos : pyval) : M bool :=
  valid <- is_valid_sample newpos "gp" ;;
  if valid then
    lift (let? n := getitem newpos "gp" in
          let? p := getitem prevpos "gp" in
          Ok (negb (list_eq n p)))%res
  else ret false.

(** [newpos['gp'][i] - prevpos['gp'][i]] *)
Definition displacement (newpos prevpos : pyval) (i : nat) : res num :=
  (let? n := getitem newpos "gp" in
   let? ni := index n i in
   let? p := getitem prevpos "gp" in
   let? pi := index p i in
   Ok (n_sub ni pi))%res.

(** [(sx/self.pxdsttresh[0])**2 + (sy/self.pxdsttresh[1])**2
     > self.weightdist] *)
Definition larger_than_noise (c : Config) (sx sy : num) : res bool :=
  (let? qx := n_div sx (fst (pxdsttresh c)) in
   let? qy := n_div sy (snd (pxdsttresh c)) in
   Ok (n_gtb (n_add (n_pow2 qx) (n_pow2 qy)) (weightdist c)))%res.

(** [prevpos['gp'][:]] *)
Definition copy_gp (pos : pyval) : res (list num) := getitem pos "gp".

(** The loop [while not saccadic] of [wait_for_saccade_start]. *)
Fixpoint saccade_start_loop (fuel : nat) (prevpos : pyval) (t0 v0 : num)
    : M (num * list num) :=
  match fuel with
  | O => pending
  | S fuel' =>
      newpos <- sample ;;
      t1 <- clock_get_time ;;
      moved <- valid_and_changed newpos prevpos ;;
      if moved then
        sx <- lift (displacement newpos prevpos 0) ;;
        sy <- lift (displacement newpos prevpos 1) ;;
        large <- (fun w => lift (larger_than_noise (cfg w) sx sy) w) ;;
        if large then
          let s := n_root (n_add (n_pow2 sx) (n_pow2 sy)) in
          v1 <- lift (n_div s (n_sub t1 t0)) ;;
          a <- lift (n_div (n_sub v1 v0) (n_sub t1 t0)) ;;
          above <- (fun w => Ret (n_gtb v1 (pxspdtresh (cfg w))
                                  || n_gtb a (pxacctresh (cfg w))) w) ;;
          if above then
            spos <- lift (copy_gp prevpos) ;;
            stime <- clock_get_time ;;
            ret (stime, spos)
          else saccade_start_loop fuel' newpos t1 v1
        else saccade_start_loop fuel' newpos t0 v0
      else saccade_start_loop fuel' prevpos t0 v0
  end.

(** In the source the whole PyGaze method, its [return] included, is
    indented under [if self.eventdetection == 'native':], after the
    warning; for another detection type the function ends without a
    [return] statement and yields [None]. *)
Definition wait_for_saccade_start (fuel : nat)
    : M (option (num * list num)) :=
  native <- (fun w => Ret (String.eqb (eventdetection w) "native") w) ;;
  if native then
    print "WARNING! 'native' event detection has been selected, but Tobii does not offer saccade detection; PyGaze algorithm will be used" ;;
    newpos <- sample ;;
    newpos <- wait_valid_gp fuel newpos ;;
    t0 <- clock_get_time ;;
    r <- saccade_start_loop fuel newpos t0 (n_of_Z 0) ;;
    ret (Some r)
  else ret None.

(** [spos['gp']] where [spos] is a list: a list is not subscripted by a
    string. *)
Definition list_getitem_str (l : list num) (key : string) : res (list num) :=
  Err TypeError.

(** The loop [while saccadic] of [wait_for_saccade_end]. *)
Fixpoint saccade_end_loop (fuel : nat) (spos : list num) (prevpos : pyval)
    (t0 v0 : num) : M (num * list num * list num) :=
  match fuel with
  | O => pending
  | S fuel' =>
      newpos <- sample ;;
      t1 <- clock_get_time ;;
      moved <- valid_and_changed newpos prevpos ;;
      if moved then
        sx <- lift (displacement newpos prevpos 0) ;;
        sy <- lift (displacement newpos prevpos 1) ;;
        let s := n_root (n_add (n_pow2 sx) (n_pow2 sy)) in
        v1 <- lift (n_div s (n_sub t1 t0)) ;;
        a <- lift (n_div (n_sub v1 v0) (n_sub t1 t0)) ;;
        below <- (fun w =>
                    Ret (n_ltb v1 (pxspdtresh (cfg w))
                         && (n_gtb a (n_mul minus_one (pxacctresh (cfg w)))
                             && n_ltb a (n_of_Z 0))) w) ;;
        if below then
          epos <- lift (copy_gp newpos) ;;
          etime <- clock_get_time ;;
          ret (etime, spos, epos)
        else saccade_end_loop fuel' spos newpos t1 v1
      else saccade_end_loop fuel' spos newpos t0 v0
  end.

Definition wait_for_saccade_end (fuel : nat)
    : M (num * list num * list num) :=
  warn_native "WARNING! 'native' event detection has been selected, but Tobii does not offer saccade detection; PyGaze algorithm will be used" ;;
  started <- wait_for_saccade_start fuel ;;
  (* t0, spos = self.wait_for_saccade_start() *)
  match started with
  | None => raise TypeError
  | Some (t0, spos) =>
      prevpos <- sample ;;
      prevpos <- wait_valid_gp fuel prevpos ;;
      t1 <- clock_get_time ;;
      s <- lift (let? p := getitem prevpos "gp" in
                 let? p0 := index p 0 in
                 let? sg := list_getitem_str spos "gp" in
                 let? s0 := index sg 0 in
                 let? p1 := index p 1 in
                 let? s1 := index sg 1 in
                 Ok (n_root (n_add (n_pow2 (n_sub p0 s0))
                                   (n_pow2 (n_sub p1 s1)))))%res ;;
      v0 <- lift (n_div s (n_sub t1 t0)) ;;
      saccade_end_loop fuel spos prevpos t0 v0
  end.

(** ** Recording *)

(** A call on the tracker link: it is recorded, and returns or raises what
    the link answers. *)
Definition call_link {A : Type} (c : LinkCall) (answer : Link -> res A)
    : M A :=
  fun w => lift (answer (link w)) (set_calls (calls w ++ [c]) w).

Definition start_recording : M unit :=
  current <- (fun w => Ret (current_recording_id w) w) ;;
  match current with
  | None =>
      participant <- (fun w => Ret (current_participant_id w) w) ;;
      rid <- call_link (CreateRecording participant)
               (fun l => create_recording l participant) ;;
      (fun w => Ret tt (set_current_recording_id (Some rid) w)) ;;
      (* try: ... except: raise Exception(...) *)
      fun w =>
        match (call_link (StartRecording rid)
                 (fun l => start_recording_rpc l rid) ;;
               log_debug ("Recording " ++ rid ++ " started!")) w with
        | Ret _ w' => Ret tt w'
        | Exc _ w' =>
            Exc (Exception "Error in libtobiiproglasses.TobiiProGlassesController.start_recording: failed to start recording") w'
        | Pending => Pending
        end
  | Some _ => log_error "The Tobii Pro Glasses is already recording!"
  end.

Definition stop_recording : M unit :=
  current <- (fun w => Ret (current_recording_id w) w) ;;
  match current with
  | None => log_error "There is no recordings started!"
  | Some rid =>
      call_link (StopRecording rid) (fun l => stop_recording_rpc l rid) ;;
      res <- call_link (WaitUntilRecordingIsDone rid)
               (fun l => wait_until_recording_is_done l rid) ;;
      fun w => Ret tt (set_current_recording_id None w)
  end.

(** [polled_valid feed v]: [v] is the dictionary [sample] returns for
    some datum of [feed], and its coordinates are not the sentinel. *)
Definition polled_valid (feed : list RawData) (v : pyval) : Prop :=
  exists r s,
    In r feed /\ delivered_gp r = Some s /\ v = PDict s /\ gp_valid s = true.

(** ** Event dispatcher *)

Definition wait_for_blink_end : M unit := print "function not supported yet".
Definition wait_for_blink_start : M unit := print "function not supported yet".

(** What [wait_for_event] hands back: [None], the pair of a saccade start,
    the triple of a saccade end, or the dictionary of a fixation. *)
Inductive EventOutcome : Type :=
| NoOutcome
| SaccadeStart (stime : num) (spos : list num)
| SaccadeEnd (etime : num) (spos epos : list num)
| Fixation (data : FixResult).

(** ["%s" % event] for an integer event code. *)
Definition str_of_Z (z : Z) : string := NilZero.string_of_int (Z.to_int z).

Definition wait_for_event (eye_position : M pyval) (event : Z) (fuel : nat)
    : M EventOutcome :=
  if Z.eqb event 3 then wait_for_blink_start ;; ret NoOutcome
  else if Z.eqb event 4 then wait_for_blink_end ;; ret NoOutcome
  else if Z.eqb event 5 then
    outcome <- wait_for_saccade_start fuel ;;
    match outcome with
    | None => ret NoOutcome
    | Some (stime, spos) => ret (SaccadeStart stime spos)
    end
  else if Z.eqb event 6 then
    outcome <- wait_for_saccade_end fuel ;;
    let '(etime, spos, epos) := outcome in
    ret (SaccadeEnd etime spos epos)
  else if Z.eqb event 7 then
    outcome <- wait_for_fixation_start eye_position false fuel ;;
    ret (Fixation outcome)
  else if Z.eqb event 8 then
    outcome <- wait_for_fixation_end eye_position false fuel ;;
    ret (Fixation outcome)
  else
    raise (Exception
             ("Error in libtobii.TobiiTracker.wait_for_event: eventcode "
              ++ str_of_Z event ++ " is not supported")).

(** ** Eye position and pupil size *)

(** [self.get_lefteyedata] and [self.get_righteyedata] as [eye_position]
    names them: the bound methods, not their results. *)
Inductive accessor : Type :=
| LeftEyeData
| RightEyeData.

(** [data[key]] where [data] is a bound method: methods are not
    subscripted. *)
Definition method_getitem (data : accessor) (key : string) : res pyval :=
  Err TypeError.

(** [numpy.average([u, v], axis=0)] *)
Definition np_average2 (u v : list num) : res (list num) :=
  if Nat.eqb (List.length u) (List.length v) then
    Ok (map (fun xy => n_quot (n_add (fst xy) (snd xy)) (n_of_Z 2))
            (combine u v))
  else Err ValueError.

(** The [try] statement of one branch of [eye_position]: the value of the
    body is returned; an [IndexError] is logged and answered by the
    sentinel dictionary; any other exception leaves the method. *)
Definition return_or_sentinel (body : res pyval) : M pyval :=
  match body with
  | Ok v => ret v
  | Err IndexError =>
      log_error "No eye position data available" ;;
      ret (PDict (sentinel_sample "pc" sentinel_pc))
  | Err e => raise e
  end.

(** [eye_used] is [self.eye_used], which [__init__] sets to 0 (left) and
    nothing in the file changes. *)
Definition eye_position (eye_used : Z) : M pyval :=
  s <- is_streaming ;;
  if s then
    if Z.eqb eye_used 0 then
      let data := LeftEyeData in
      return_or_sentinel (method_getitem data "pc")
    else if Z.eqb eye_used 1 then
      let data := RightEyeData in
      return_or_sentinel (method_getitem data "pc")
    else if Z.eqb eye_used 2 then
      let data_left := LeftEyeData in
      let data_right := RightEyeData in
      return_or_sentinel
        (let? l := method_getitem data_left "pc" in
         let? lg := get_gidx l in
         let? r := method_getitem data_right "pc" in
         let? rg := get_gidx r in
         if negb (Z.eqb lg rg) then
           (* we got eye positions for different events *)
           Ok (PDict (sentinel_sample "pc" sentinel_pc))
         else
           let? lc := getitem l "pc" in
           let? rc := getitem r "pc" in
           let? eye := np_average2 lc rc in
           let? lts := get_ts l in
           let? rts := get_ts r in
           let? ts_avg := n_div (n_add lts rts) (n_of_Z 2) in
           Ok (PDict (mkSample "pc" eye ts_avg lg)))%res
    else ret PNone
  else
    log_error "The eye-tracker is not in capturing mode." ;; ret PNone.

(** The ['pd'] entry of the data of one eye: the pupil diameter with its
    time stamp and event index, or data whose subscripting raises. *)
Inductive PdData : Type :=
| Pd (pd : num) (ts : num) (gidx : Z)
| NoPd (e : exn).

Definition pd_gidx (d : PdData) : res Z :=
  match d with Pd _ _ gidx => Ok gidx | NoPd e => Err e end.
Definition pd_ts (d : PdData) : res num :=
  match d with Pd _ ts _ => Ok ts | NoPd e => Err e end.
Definition pd_value (d : PdData) : res num :=
  match d with Pd pd _ _ => Ok pd | NoPd e => Err e end.

(** The dictionary [{'left': .., 'right': .., 'ts': .., 'gidx': ..}]. *)
Record PupilSize : Type := mkPupilSize {
  p_left : num;
  p_right : num;
  p_ts : num;
  p_gidx : Z
}.

Section Pupil.

(** [self.get_lefteyedata()['pd']] and [self.get_righteyedata()['pd']]:
    what the link holds for the two eyes when [pupil_size] is called. *)
Variables left_pd right_pd : PdData.

(** The body of the [try] statement of [pupil_size]: the binding of
    [data_dict] it leaves, if any, or the exception it raises.  When the
    event indices of the two eyes differ, nothing is bound. *)
Definition pupil_size_try : res (option PupilSize) :=
  (let? lg := pd_gidx left_pd in
   let? rg := pd_gidx right_pd in
   if Z.eqb lg rg then
     let? lts := pd_ts left_pd in
     let? rts := pd_ts right_pd in
     let? ts_avg := n_div (n_add lts rts) (n_of_Z 2) in
     let? l := pd_value left_pd in
     let? r := pd_value right_pd in
     let? g := pd_gidx left_pd in
     Ok (Some (mkPupilSize l r ts_avg g))
   else Ok None)%res.

Definition pupil_size : M (option PupilSize) :=
  s <- is_streaming ;;
  if s then
    data_dict <-
      match pupil_size_try with
      | Ok bound => ret bound
      | Err IndexError =>
          log_error "No gaze 3d position data available." ;;
          ret (Some (mkPupilSize minus_one minus_one minus_one (-1)))
      | Err _ => ret None
      end ;;
    (* finally: return data_dict *)
    match data_dict with
    | Some d => ret (Some d)
    | None => raise (UnboundLocalError "data_dict")
    end
  else
    log_error "The eye-tracker is not in capturing mode." ;; ret None.

End Pupil.

(** ** Log header *)

(** [key in keys] *)
Definition str_in (key : string) (keys : list string) : bool :=
  existsb (String.eqb key) keys.

(** [s[:-n]] for a positive [n]. *)
Definition drop_last (n : nat) (s : string) : string :=
  substring 0 (String.length s - n) s.

(** [self.triggers_values[key] = value] on the dictionary of trigger
    values, kept as an association list; [None] is a value. *)
Fixpoint dict_set (key : string) (value : option string)
    (d : list (string * option string)) : list (string * option string) :=
  match d with
  | [] => [(key, value)]
  | (k, v) :: d' =>
      if String.eqb k key then (k, value) :: d'
      else (k, v) :: dict_set key value d'
  end.

Fixpoint dict_get (key : string) (d : list (string * option string))
    : res (option string) :=
  match d with
  | [] => Err (KeyError key)
  | (k, v) :: d' => if String.eqb k key then Ok v else dict_get key d'
  end.

(** [for trigger in triggers: header += trigger + "; ";
    self.triggers_values[trigger] = None] *)
Fixpoint header_triggers (triggers : list string) (header : string)
    (triggers_values : list (string * option string))
    : string * list (string * option string) :=
  match triggers with
  | [] => (header, triggers_values)
  | trigger :: rest =>
      header_triggers rest (header ++ trigger ++ "; ")
        (dict_set trigger None triggers_values)
  end.

(** [__get_log_header__]: the header, and [self.triggers_values] as the
    call leaves it. *)
Definition get_log_header (keys triggers : list string)
    (triggers_values : list (string * option string))
    : string * list (string * option string) :=
  let header := "ts; " in
  let header :=
    if str_in "mems" keys then
      header ++ "ac_x [m/s^2]; ac_y [m/s^2]; ac_z [m/s^2]; gy_x [°/s]; gy_y [°/s]; gy_z [°/s]; "
    else header in
  let header :=
    if str_in "gp" keys then header ++ "gp_x; gp_y; " else header in
  let header :=
    if str_in "gp3" keys then
      header ++ "gp3_x [mm]; gp3_y [mm]; gp3_z [mm]; "
    else header in
  let header :=
    if str_in "left_eye" keys then
      header ++ "left_pc_x [mm]; left_pc_y [mm]; left_pc_z [mm]; left_pd [mm]; left_gd_x; left_gd_y; left_gd_z; "
    else header in
  let header :=
    if str_in "left_eye" keys then
      header ++ "right_pc_x [mm]; right_pc_y [mm]; right_pc_z [mm]; right_pd [mm]; right_gd_x; right_gd_y; right_gd_z; "
    else header in
  let '(header, triggers_values) :=
    (if Nat.ltb 0 (List.length triggers)
     then header_triggers triggers header triggers_values
     else (header, triggers_values)) in
  (drop_last 2 header, triggers_values).

(** The names of the columns of the log, in their order: what the header
    is expected to list, separated by ["; "]. *)
Definition log_columns (keys triggers : list string) : list string :=
  ["ts"]
  ++ (if str_in "mems" keys then
        ["ac_x [m/s^2]"; "ac_y [m/s^2]"; "ac_z [m/s^2]";
         "gy_x [°/s]"; "gy_y [°/s]"; "gy_z [°/s]"]
      else [])
  ++ (if str_in "gp" keys then ["gp_x"; "gp_y"] else [])
  ++ (if str_in "gp3" keys then ["gp3_x [mm]"; "gp3_y [mm]"; "gp3_z [mm]"]
      else [])
  ++ (if str_in "left_eye" keys then
        ["left_pc_x [mm]"; "left_pc_y [mm]"; "left_pc_z [mm]"; "left_pd [mm]";
         "left_gd_x"; "left_gd_y"; "left_gd_z";
         "right_pc_x [mm]"; "right_pc_y [mm]"; "right_pc_z [mm]";
         "right_pd [mm]"; "right_gd_x"; "right_gd_y"; "right_gd_z"]
      else [])
  ++ triggers.

(** Every column followed by the separator. *)
Fixpoint join_sep (columns : list string) : string :=
  match columns with
  | [] => ""
  | c :: rest => c ++ "; " ++ join_sep rest
  end.

(** The dictionary [sample3D] returns for a datum of the link. *)
Definition delivered_gp3 (r : RawData) : option Sample :=
  match r with
  | Data coords ts gidx => Some (mkSample "gp3" coords ts gidx)
  | NoData IndexError => Some (sentinel_sample "gp3" sentinel_gp3)
  | NoData _ => None
  end.

(** A datum polled while the gaze rests at the coordinates [prev]: the
    dictionary is invalid, or its coordinates equal [prev]. *)
Definition keeps_still (prev : list num) (r : RawData) : Prop :=
  exists s, delivered_gp r = Some s /\
    (gp_valid s = false
     \/ (gp_valid s = true /\ list_eq (s_coords s) prev = true)).

(** The three windows of the experimental detector. *)
Definition windows (w : World) : list pyval * list pyval * list pyval :=
  (gaze_samples w, gp3_samples w, eye_samples w).

(** A computation that leaves the windows alone. *)
Definition keeps_windows {A : Type} (c : M A) : Prop :=
  forall w v w', c w = Ret v w' -> windows w' = windows w.

End Tracker.

Arguments Ret {num A} a w.
Arguments Exc {num A} e w.
Arguments Pending {num A}.

(** ** Binary64 floats as Python numbers *)

Definition float_of_Z (z : Z) : float :=
  match z with
  | Z0 => PrimFloat.zero
  | Zpos _ => PrimFloat.of_uint63 (Uint63.of_Z z)
  | Zneg p => PrimFloat.opp (PrimFloat.of_uint63 (Uint63.of_Z (Zpos p)))
  end.

Definition float_div (x y : float) : res float :=
  if PrimFloat.eqb y PrimFloat.zero then Err ZeroDivisionError
  else Ok (PrimFloat.div x y).

#[export] Instance float_PyNum : PyNum float := {
  n_of_Z := float_of_Z;
  n_add := PrimFloat.add;
  n_sub := PrimFloat.sub;
  n_mul := PrimFloat.mul;
  n_div := float_div;
  n_quot := PrimFloat.div;
  n_pow2 := fun x => PrimFloat.mul x x;
  n_root := PrimFloat.sqrt;
  n_abs := PrimFloat.abs;
  n_eqb := PrimFloat.eqb;
  n_ltb := PrimFloat.ltb;
  n_leb := PrimFloat.leb
}.

(** [numpy.arccos] and [numpy.degrees] on floats, to run the experimental
    detector: the arc cosine by the polynomial of Abramowitz and Stegun
    (4.4.45), within 1e-4 of the function, with its coefficients
    1.5707288, -0.2121144, 0.0742610 and -0.0187293 as binary64 values.
    No property below depends on these two. *)
Definition float_arccos (x : float) : float :=
  let ax := PrimFloat.abs x in
  let poly :=
    (0x1.921b485ae2a4ap+0
     + ax * (-0x1.b26908d815d63p-3
             + ax * (0x1.302c4d65e4606p-4 + ax * -0x1.32dc60be86b8fp-6)))%float
  in
  let p := (PrimFloat.sqrt (1 - ax) * poly)%float in
  if PrimFloat.ltb x 0%float then (0x1.921fb54442d18p+1 - p)%float else p.

Definition float_degrees (x : float) : float :=
  (x * 0x1.ca5dc1a63c1f8p+5)%float.

#[export] Instance float_NumPy : NumPy float := {
  np_arccos := float_arccos;
  np_degrees := float_degrees
}.

(** ** Concrete trackers *)

Module Run.

Definition fl (z : Z) : float := float_of_Z z.

Definition a_link : Link :=
  mkLink (fun _ => Ok "rec1") (fun _ => Ok tt) (fun _ => Ok tt)
         (fun _ => Ok true).

(** Thresholds in pixels and milliseconds. *)
Definition a_config : @Config float :=
  mkConfig (fl 30) (fl 100) (fl 20, fl 20) (fl 2) (fl 1) (fl 10) (fl 70).

(** A streaming tracker, set up as [__init__] leaves it, with the given
    feeds. *)
Definition tracker (gp gp3 : list (@RawData float)) (clock : list float)
    : World :=
  mkWorld a_link true gp gp3 clock [] a_config "pygaze" None None None
          true [] [] [] [].

Definition gp_at (x y ts : Z) (gidx : Z) : @RawData float :=
  Data [fl x; fl y] (fl ts) gidx.

Definition gp_sample (x y ts : Z) (gidx : Z) : @Sample float :=
  mkSample "gp" [fl x; fl y] (fl ts) gidx.

Definition no_gp : @RawData float := Data [fl (-1); fl (-1)] (fl (-1)) (-1).

(** A gaze that rests at (100,100). *)
Definition resting : World :=
  tracker [no_gp; gp_at 100 100 10 1; NoData IndexError; gp_at 101 100 20 1;
           gp_at 100 101 30 1; gp_at 400 300 40 2]
          [] [fl 0; fl 50; fl 120; fl 130].

(** A gaze that jumps once to (500,500) and rests there. *)
Definition jumping : World :=
  tracker [gp_at 100 100 10 1; gp_at 101 100 20 1; gp_at 500 500 30 2;
           gp_at 501 500 40 2; no_gp; gp_at 500 501 50 2]
          [] [fl 0; fl 20; fl 40; fl 90; fl 150].

(** A tracker whose 2D gaze record has no ['gp'] entry yet. *)
Definition without_gp : World :=
  tracker [NoData (KeyError "gp")] [] [].

(** A tracker that holds no 2D and no 3D gaze data. *)
Definition without_data : World :=
  tracker [NoData IndexError] [NoData IndexError] [].

(** A tracker in the middle of recording [rec0]. *)
Definition recording : World :=
  set_current_recording_id (Some "rec0") (tracker [] [] []).

(** A tracker whose 3D gaze data drop out every other round while the 2D
    gaze data keep coming, and an eye position source that always
    delivers. *)
Definition gp3_at (x y z ts : Z) (gidx : Z) : @RawData float :=
  Data [fl x; fl y; fl z] (fl ts) gidx.

Definition dropping_gp3 : World :=
  tracker [gp_at 100 100 10 1; gp_at 101 100 20 1; gp_at 100 101 30 1;
           gp_at 101 101 40 1]
          [gp3_at 10 20 900 10 1; NoData IndexError; gp3_at 11 20 900 30 1;
           Data [fl (-1); fl (-1); fl (-1)] (fl (-1)) (-1)]
          [].

Definition eye_at (x y z ts : Z) (gidx : Z) : @pyval float :=
  PDict (mkSample "pc" [fl x; fl y; fl z] (fl ts) gidx).

Definition steady_eye : @M float (@pyval float) := ret (eye_at 30 (-20) (-25) 10 1).

Definition no_gp3 : @pyval float :=
  PDict (mkSample "gp3" [fl (-1); fl (-1); fl (-1)] (fl (-1)) (-1)).

(** A tracker that is connected and not streaming. *)
Definition not_streaming : World :=
  mkWorld a_link false [gp_at 100 100 10 1] [] [fl 0] [] a_config "pygaze"
          None None None true [] [] [] [].

(** A tracker whose gaze records lack their coordinate entries. *)
Definition without_entries : World :=
  tracker [NoData (KeyError "gp")] [NoData (KeyError "gp3")] [].

(** A link that creates recordings and cannot start them, and a link that
    cannot create them. *)
Definition link_not_starting : Link :=
  mkLink (fun _ => Ok "rec1") (fun _ => Err LinkError) (fun _ => Ok tt)
         (fun _ => Ok true).

Definition link_not_creating : Link :=
  mkLink (fun _ => Err LinkError) (fun _ => Ok tt) (fun _ => Ok tt)
         (fun _ => Ok true).

Definition tracker_on (l : Link) : @World float :=
  mkWorld l true [] [] [] [] a_config "pygaze" None (Some "part1")
          (Some "proj1") true [] [] [] [].

(** A tracker whose detection type was set to ['native'] by hand, and a
    gaze that rests at (100,100) and then jumps to (300,100) between the
    clock readings 20 and 30. *)
Definition native_jump : World :=
  set_eventdetection "native"
    (tracker [no_gp; gp_at 100 100 10 1; gp_at 100 100 20 1; no_gp;
              gp_at 300 100 30 2; gp_at 301 100 40 2]
             [] [fl 0; fl 10; fl 20; fl 30; fl 31; fl 40]).

End Run.

(** * Properties *)

Section Properties.

Local Open Scope list_scope.

Context {num : Type} `{PyNum num} `{NumPy num}.

(** ** The primitives of a polling loop *)

Lemma sample_delivers (w : World) (r : RawData) (rest : list RawData)
    (s : Sample) :
  streaming w = true ->
  gp_feed w = r :: rest ->
  delivered_gp r = Some s ->
  exists l, sample w = Ret (PDict s) (set_logs l (set_gp_feed rest w)).
Proof.
  intros Hs Hf Hd.
  unfold sample, bind, is_streaming, get_gp. rewrite Hs, Hf.
  destruct r as [c t g | e]; cbn in Hd.
  - injection Hd as <-. exists (logs w). reflexivity.
  - destruct e; try discriminate. injection Hd as <-.
    eexists. reflexivity.
Qed.

Lemma is_valid_gp_delivered (r : RawData) (s : Sample) (w : World) :
  delivered_gp r = Some s ->
  is_valid_sample (PDict s) "gp" w = Ret (gp_valid s) w.
Proof.
  intros Hd.
  assert (Hk : s_key s = "gp").
  { destruct r as [c t g | e]; cbn in Hd.
    - injection Hd as <-. reflexivity.
    - destruct e; try discriminate. injection Hd as <-. reflexivity. }
  unfold is_valid_sample, gp_valid. cbn. unfold bind, getitem.
  rewrite Hk. cbn.
  destruct (list_eq (s_coords s) sentinel_gp); reflexivity.
Qed.

Lemma clock_reads (w : World) (t : num) (later : list num) :
  clock_feed w = t :: later ->
  clock_get_time w = Ret t (set_clock_feed later w).
Proof. intros Hc. unfold clock_get_time. rewrite Hc. reflexivity. Qed.

(** ** The dispersion loop of [wait_for_fixation_start] *)

Lemma wait_valid_gp_skips (skipped : list RawData) :
  forall (fuel : nat) (w : World) (cur : Sample) (r0 : RawData)
         (anchor : Sample) (rest : list RawData),
    streaming w = true ->
    gp_feed w = skipped ++ r0 :: rest ->
    Forall polls_invalid skipped ->
    (exists r, delivered_gp r = Some cur) ->
    gp_valid cur = false ->
    delivered_gp r0 = Some anchor ->
    gp_valid anchor = true ->
    List.length skipped + 2 <= fuel ->
    exists l, wait_valid_gp fuel (PDict cur) w
              = Ret (PDict anchor) (set_logs l (set_gp_feed rest w)).
Proof.
  induction skipped as [|r skipped IH];
    intros fuel w cur r0 anchor rest Hs Hf Hinv [rc Hcur] Hcv Hd Hv Hfuel.
  - destruct fuel as [|[|fuel]]; cbn in Hfuel; try lia.
    cbn [wait_valid_gp]. unfold bind at 1.
    rewrite (is_valid_gp_delivered rc cur w Hcur), Hcv.
    unfold bind at 1.
    destruct (sample_delivers w r0 rest anchor Hs Hf Hd) as [l ->].
    unfold bind at 1.
    rewrite (is_valid_gp_delivered r0 anchor _ Hd), Hv.
    exists l. reflexivity.
  - destruct fuel as [|fuel]; cbn in Hfuel; try lia.
    inversion Hinv as [|? ? [s [Hds Hsv]] Hinv']; subst.
    cbn [wait_valid_gp]. unfold bind at 1.
    rewrite (is_valid_gp_delivered rc cur w Hcur), Hcv.
    unfold bind at 1.
    destruct (sample_delivers w r (skipped ++ r0 :: rest) s Hs Hf Hds)
      as [l ->].
    destruct (IH fuel (set_logs l (set_gp_feed (skipped ++ r0 :: rest) w))
                 s r0 anchor rest) as [l' Hl']; auto.
    + exists r. exact Hds.
    + lia.
    + exists l'. rewrite Hl'. reflexivity.
Qed.

Lemma fixation_start_loop_holds (held : list RawData) :
  forall (fuel : nat) (w : World) (spos : pyval) (t0 : num)
         (rest : list RawData) (early later : list num),
    streaming w = true ->
    gp_feed w = held ++ rest ->
    clock_feed w = early ++ later ->
    Forall (holds_anchor (cfg w) spos) held ->
    List.length early = List.length (filter polls_valid held) ->
    Forall (fun t => held_long_enough (cfg w) t0 t = false) early ->
    exists l,
      fixation_start_loop (List.length held + fuel) spos t0 w
      = fixation_start_loop fuel spos t0
          (set_logs l (set_clock_feed later (set_gp_feed rest w))).
Proof.
  induction held as [|r held IH];
    intros fuel w spos t0 rest early later Hs Hf Hc Hh Hn He.
  - cbn in Hn. destruct early; try discriminate. cbn in Hf, Hc.
    exists (logs w). cbn [List.length Nat.add].
    destruct w; cbn in *; subst; reflexivity.
  - inversion Hh as [|? ? [s [Hds Hcase]] Hh']; subst.
    cbn [List.length Nat.add fixation_start_loop]. unfold bind at 1.
    destruct (sample_delivers w r (held ++ rest) s Hs Hf Hds) as [l ->].
    unfold bind at 1.
    rewrite (is_valid_gp_delivered r s _ Hds).
    cbn [filter] in Hn. unfold polls_valid at 1 in Hn. rewrite Hds in Hn.
    destruct Hcase as [Hv | [Hv Hnear]]; rewrite Hv in *.
    + destruct (IH fuel (set_logs l (set_gp_feed (held ++ rest) w))
                   spos t0 rest early later) as [l' Hl']; auto.
      exists l'. rewrite Hl'. reflexivity.
    + destruct early as [|t early]; try discriminate.
      inversion He as [|? ? Ht He']; subst.
      unfold bind at 1. cbn [cfg set_logs set_gp_feed].
      rewrite Hnear. cbn [lift ret].
      unfold bind at 1.
      rewrite (clock_reads _ t (early ++ later)) by (cbn; exact Hc).
      unfold bind at 1. cbn [cfg set_logs set_gp_feed set_clock_feed].
      rewrite Ht.
      destruct (IH fuel
                  (set_clock_feed (early ++ later)
                     (set_logs l (set_gp_feed (held ++ rest) w)))
                  spos t0 rest early later) as [l' Hl']; auto.
      exists l'. rewrite Hl'. reflexivity.
Qed.

Lemma fixation_start_loop_returns (fuel : nat) (w : World) (spos : pyval)
    (t0 t1 : num) (r : RawData) (s : Sample) (rest : list RawData)
    (later : list num) :
  streaming w = true ->
  gp_feed w = r :: rest ->
  clock_feed w = t1 :: later ->
  delivered_gp r = Some s ->
  gp_valid s = true ->
  too_far (cfg w) (PDict s) spos = Ok false ->
  held_long_enough (cfg w) t0 t1 = true ->
  exists l,
    fixation_start_loop (S fuel) spos t0 w
    = Ret (FixStart t0 spos)
          (set_logs l (set_clock_feed later (set_gp_feed rest w))).
Proof.
  intros Hs Hf Hc Hd Hv Hnear Hlong.
  cbn [fixation_start_loop]. unfold bind at 1.
  destruct (sample_delivers w r rest s Hs Hf Hd) as [l ->].
  unfold bind at 1. rewrite (is_valid_gp_delivered r s _ Hd), Hv.
  unfold bind at 1. cbn [cfg set_logs set_gp_feed].
  rewrite Hnear. cbn [lift ret].
  unfold bind at 1.
  rewrite (clock_reads _ t1 later) by (cbn; exact Hc).
  unfold bind at 1. cbn [cfg set_logs set_gp_feed set_clock_feed].
  rewrite Hlong. exists l. reflexivity.
Qed.

Lemma fixation_start_loop_resets (fuel : nat) (w : World) (spos : pyval)
    (t0 t : num) (r : RawData) (s : Sample) (rest : list RawData)
    (later : list num) :
  streaming w = true ->
  gp_feed w = r :: rest ->
  clock_feed w = t :: later ->
  delivered_gp r = Some s ->
  gp_valid s = true ->
  too_far (cfg w) (PDict s) spos = Ok true ->
  exists l,
    fixation_start_loop (S fuel) spos t0 w
    = fixation_start_loop fuel (PDict s) t
        (set_logs l (set_clock_feed later (set_gp_feed rest w))).
Proof.
  intros Hs Hf Hc Hd Hv Hfar.
  cbn [fixation_start_loop]. unfold bind at 1.
  destruct (sample_delivers w r rest s Hs Hf Hd) as [l ->].
  unfold bind at 1. rewrite (is_valid_gp_delivered r s _ Hd), Hv.
  unfold bind at 1. cbn [cfg set_logs set_gp_feed].
  rewrite Hfar. cbn [lift ret].
  unfold bind at 1.
  rewrite (clock_reads _ t later) by (cbn; exact Hc).
  exists l. reflexivity.
Qed.

(** From an anchor held over [held], the loop returns at the first valid
    near sample polled once the anchor is old enough. *)
Lemma fixation_start_loop_detects (held : list RawData) (fuel : nat)
    (w : World) (spos : pyval) (t0 t1 : num) (r1 : RawData) (last : Sample)
    (rest : list RawData) (early later : list num) :
  streaming w = true ->
  gp_feed w = held ++ r1 :: rest ->
  clock_feed w = early ++ t1 :: later ->
  Forall (holds_anchor (cfg w) spos) held ->
  List.length early = List.length (filter polls_valid held) ->
  Forall (fun t => held_long_enough (cfg w) t0 t = false) early ->
  delivered_gp r1 = Some last ->
  gp_valid last = true ->
  too_far (cfg w) (PDict last) spos = Ok false ->
  held_long_enough (cfg w) t0 t1 = true ->
  List.length held < fuel ->
  exists l,
    fixation_start_loop fuel spos t0 w
    = Ret (FixStart t0 spos)
          (set_logs l (set_clock_feed later (set_gp_feed rest w))).
Proof.
  intros Hs Hf Hc Hh Hn He Hd Hv Hnear Hlong Hfuel.
  replace fuel with (List.length held + S (fuel - S (List.length held)))
    by lia.
  destruct (fixation_start_loop_holds held (S (fuel - S (List.length held)))
              w spos t0 (r1 :: rest) early (t1 :: later))
    as [l ->]; auto.
  destruct (fixation_start_loop_returns (fuel - S (List.length held))
              (set_logs l (set_clock_feed (t1 :: later)
                             (set_gp_feed (r1 :: rest) w)))
              spos t0 t1 r1 last rest later) as [l' ->]; auto.
  exists l'. reflexivity.
Qed.

(** Entering the PyGaze method: the leading sentinels are skipped, the
    first valid sample becomes the anchor, and the clock is read. *)
Lemma fixation_start_pygaze_enters (skipped : list RawData)
    (fuel : nat) (w : World) (r0 : RawData) (anchor : Sample)
    (rest : list RawData) (t0 : num) (later : list num) :
  streaming w = true ->
  gp_feed w = skipped ++ r0 :: rest ->
  clock_feed w = t0 :: later ->
  Forall polls_invalid skipped ->
  delivered_gp r0 = Some anchor ->
  gp_valid anchor = true ->
  List.length skipped < fuel ->
  exists l,
    fixation_start_pygaze fuel w
    = fixation_start_loop fuel (PDict anchor) t0
        (set_logs l (set_clock_feed later (set_gp_feed rest w))).
Proof.
  intros Hs Hf Hc Hinv Hd Hv Hfuel.
  unfold fixation_start_pygaze. unfold bind at 1.
  destruct skipped as [|r skipped].
  - destruct (sample_delivers w r0 rest anchor Hs Hf Hd) as [l ->].
    destruct fuel as [|fuel]; try (cbn in Hfuel; lia).
    unfold bind at 1. cbn [wait_valid_gp]. unfold bind at 1.
    rewrite (is_valid_gp_delivered r0 anchor _ Hd), Hv.
    cbn [ret]. unfold bind at 1.
    rewrite (clock_reads _ t0 later) by (cbn; exact Hc).
    exists l. reflexivity.
  - inversion Hinv as [|? ? [s [Hds Hsv]] Hinv']; subst.
    destruct (sample_delivers w r (skipped ++ r0 :: rest) s Hs Hf Hds)
      as [l ->].
    unfold bind at 1.
    destruct (wait_valid_gp_skips skipped fuel
                (set_logs l (set_gp_feed (skipped ++ r0 :: rest) w))
                s r0 anchor rest) as [l' ->]; auto.
    + exists r. exact Hds.
    + cbn in Hfuel. lia.
    + unfold bind at 1.
      rewrite (clock_reads _ t0 later) by (cbn; exact Hc).
      exists l'. reflexivity.
Qed.

(** The warning printed for the detection type ['native'] changes the
    messages only. *)
Lemma fixation_start_enters (eye : M pyval) (skipped : list RawData)
    (fuel : nat) (w : World) (r0 : RawData) (anchor : Sample)
    (rest : list RawData) (t0 : num) (later : list num) :
  streaming w = true ->
  gp_feed w = skipped ++ r0 :: rest ->
  clock_feed w = t0 :: later ->
  Forall polls_invalid skipped ->
  delivered_gp r0 = Some anchor ->
  gp_valid anchor = true ->
  List.length skipped < fuel ->
  exists l,
    wait_for_fixation_start eye false fuel w
    = fixation_start_loop fuel (PDict anchor) t0
        (set_logs l (set_clock_feed later (set_gp_feed rest w))).
Proof.
  intros Hs Hf Hc Hinv Hd Hv Hfuel.
  unfold wait_for_fixation_start. unfold bind at 1.
  unfold warn_native.
  destruct (String.eqb (eventdetection w) "native"); cbn [negb print].
  - match goal with
    | |- context [fixation_start_pygaze fuel ?w0] =>
        destruct (fixation_start_pygaze_enters skipped fuel w0 r0 anchor
                    rest t0 later) as [l ->]; auto
    end.
    exists l. reflexivity.
  - destruct (fixation_start_pygaze_enters skipped fuel w r0 anchor
                rest t0 later) as [l ->]; auto.
    exists l. reflexivity.
Qed.


(** ** The dispersion loop of [wait_for_fixation_end] *)

Lemma fixation_end_loop_leaves (held : list RawData) :
  forall (fuel : nat) (w : World) (spos : pyval) (r : RawData)
         (dev : Sample) (rest : list RawData),
    streaming w = true ->
    gp_feed w = held ++ r :: rest ->
    Forall (holds_anchor (cfg w) spos) held ->
    delivered_gp r = Some dev ->
    gp_valid dev = true ->
    too_far (cfg w) (PDict dev) spos = Ok true ->
    List.length held < fuel ->
    exists l,
      fixation_end_loop fuel spos w = Ret tt (set_logs l (set_gp_feed rest w)).
Proof.
  induction held as [|r' held IH];
    intros fuel w spos r dev rest Hs Hf Hh Hd Hv Hfar Hfuel;
    (destruct fuel as [|fuel]; [cbn in Hfuel; lia|]);
    cbn [fixation_end_loop]; unfold bind at 1.
  - destruct (sample_delivers w r rest dev Hs Hf Hd) as [l ->].
    unfold bind at 1. rewrite (is_valid_gp_delivered r dev _ Hd), Hv.
    unfold bind at 1. cbn [cfg set_logs set_gp_feed].
    rewrite Hfar. exists l. reflexivity.
  - inversion Hh as [|? ? [s [Hds Hcase]] Hh']; subst.
    destruct (sample_delivers w r' (held ++ r :: rest) s Hs Hf Hds)
      as [l ->].
    unfold bind at 1. rewrite (is_valid_gp_delivered r' s _ Hds).
    destruct (IH fuel (set_logs l (set_gp_feed (held ++ r :: rest) w))
                 spos r dev rest) as [l' Hl']; auto.
    { cbn in Hfuel. lia. }
    destruct Hcase as [Hsv | [Hsv Hnear]]; rewrite Hsv.
    + exists l'. rewrite Hl'. reflexivity.
    + unfold bind at 1. cbn [cfg set_logs set_gp_feed].
      rewrite Hnear. cbn [lift ret].
      exists l'. rewrite Hl'. reflexivity.
Qed.


(** ** Sample validator *)

(** C7. For a sample dictionary of kind ['gp'], ['gp3'] or ['pc'],
    [is_valid_sample] returns [False] when the coordinate list equals the
    sentinel of the kind ([[-1,-1]] for gp, [[-1,-1,-1]] for gp3 and pc)
    and [True] otherwise, and writes nothing; for any other kind it logs an
    error and returns [True], whatever the sample. *)
Theorem is_valid_sample_sentinel (w : World) :
  (forall s, s_key s = "gp" ->
     is_valid_sample (PDict s) "gp" w
     = Ret (negb (list_eq (s_coords s) [minus_one; minus_one])) w)
  /\
  (forall s, s_key s = "gp3" ->
     is_valid_sample (PDict s) "gp3" w
     = Ret (negb (list_eq (s_coords s) [minus_one; minus_one; minus_one])) w)
  /\
  (forall s, s_key s = "pc" ->
     is_valid_sample (PDict s) "pc" w
     = Ret (negb (list_eq (s_coords s) [minus_one; minus_one; minus_one])) w)
  /\
  (forall sample kind,
     String.eqb kind "gp" = false ->
     String.eqb kind "gp3" = false ->
     String.eqb kind "pc" = false ->
     is_valid_sample sample kind w
     = Ret true
         (set_logs
            (logs w ++ [LogError ("The supplied sample type " ++ kind
                                  ++ " is not supported.")%string]) w)).
Proof.
  repeat split.
  - intros s Hk. unfold is_valid_sample. cbn. unfold bind, getitem.
    rewrite Hk. cbn.
    destruct (list_eq (s_coords s) sentinel_gp) eqn:E;
      unfold sentinel_gp in E; rewrite E; reflexivity.
  - intros s Hk. unfold is_valid_sample. cbn. unfold bind, getitem.
    rewrite Hk. cbn.
    destruct (list_eq (s_coords s) sentinel_gp3) eqn:E;
      unfold sentinel_gp3 in E; rewrite E; reflexivity.
  - intros s Hk. unfold is_valid_sample. cbn. unfold bind, getitem.
    rewrite Hk. cbn.
    destruct (list_eq (s_coords s) sentinel_pc) eqn:E;
      unfold sentinel_pc in E; rewrite E; reflexivity.
  - intros sample kind Hgp Hgp3 Hpc. unfold is_valid_sample.
    rewrite Hgp3, Hgp, Hpc. reflexivity.
Qed.

(** ** Event correlator *)

Lemma is_same_event_dicts (gaze : list (@Sample num)) :
  forall gp3 eye : list (@Sample num),
    List.length gaze = List.length gp3 ->
    List.length gp3 = List.length eye ->
    exists b,
      is_same_event (map PDict gaze) (map PDict gp3) (map PDict eye) = Ok b
      /\ (b = true <->
          forall i g p e,
            nth_error gaze i = Some g ->
            nth_error gp3 i = Some p ->
            nth_error eye i = Some e ->
            s_gidx g = s_gidx p /\ s_gidx p = s_gidx e
            /\ s_gidx g = s_gidx e).
Proof.
  induction gaze as [|g gaze IH]; intros [|p gp3] [|e eye] Hl1 Hl2;
    try discriminate.
  - exists true. split; [reflexivity|]. split; [|reflexivity].
    intros _ [|i] ? ? ? Hg; discriminate.
  - cbn [map is_same_event get_gidx res_bind].
    destruct (Z.eqb_spec (s_gidx g) (s_gidx p)) as [Egp|Ngp].
    + destruct (Z.eqb_spec (s_gidx p) (s_gidx e)) as [Epe|Npe].
      * destruct (IH gp3 eye) as [b [Hb Hiff]].
        { cbn in Hl1. lia. } { cbn in Hl2. lia. }
        exists b. split; [exact Hb|]. rewrite Hiff. split.
        -- intros Hall [|i] g' p' e' Hg Hp He; cbn in Hg, Hp, He.
           ++ injection Hg as <-. injection Hp as <-. injection He as <-.
              repeat split; congruence.
           ++ eapply Hall; eassumption.
        -- intros Hall i g' p' e' Hg Hp He.
           apply (Hall (S i)); assumption.
      * exists false. split; [reflexivity|]. split; [discriminate|].
        intros Hall. destruct (Hall 0%nat g p e eq_refl eq_refl eq_refl)
          as [_ [Hpe _]]. contradiction.
    + exists false. split; [reflexivity|]. split; [discriminate|].
      intros Hall. destruct (Hall 0%nat g p e eq_refl eq_refl eq_refl)
        as [Hgp _]. contradiction.
Qed.

(** C8. On three sequences of sample dictionaries of the same length,
    [is_same_event] returns [True] exactly when at every index the three
    [gidx] values are pairwise equal; one index where two of them differ
    makes it [False]; on empty sequences it returns [True]. *)
Theorem is_same_event_pairwise (gaze gp3 eye : list (@Sample num)) :
  List.length gaze = List.length gp3 ->
  List.length gp3 = List.length eye ->
  exists b,
    is_same_event (map PDict gaze) (map PDict gp3) (map PDict eye) = Ok b
    /\ (b = true <->
        forall i g p e,
          nth_error gaze i = Some g ->
          nth_error gp3 i = Some p ->
          nth_error eye i = Some e ->
          s_gidx g = s_gidx p /\ s_gidx p = s_gidx e /\ s_gidx g = s_gidx e)
    /\ (forall i g p e,
          nth_error gaze i = Some g ->
          nth_error gp3 i = Some p ->
          nth_error eye i = Some e ->
          (s_gidx g <> s_gidx p \/ s_gidx p <> s_gidx e
           \/ s_gidx g <> s_gidx e) ->
          b = false)
    /\ (gaze = [] -> b = true).
Proof.
  intros Hl1 Hl2.
  destruct (is_same_event_dicts gaze gp3 eye Hl1 Hl2) as [b [Hb Hiff]].
  exists b. split; [exact Hb|]. split; [exact Hiff|]. split.
  - intros i g p e Hg Hp He Hne. destruct b; [|reflexivity].
    destruct (proj1 Hiff eq_refl i g p e Hg Hp He) as [E1 [E2 E3]].
    destruct Hne as [N|[N|N]]; contradiction.
  - intros ->. apply Hiff. intros [|i] ? ? ? Hg; discriminate.
Qed.

(** ** Sampling without data *)


(** Any other exception raised by the subscripts leaves [data_dict]
    unbound, and [finally: return data_dict] raises. *)
Lemma sample_other_error_raises (w : World) (e : exn)
    (rest : list RawData) :
  streaming w = true ->
  e <> IndexError ->
  gp_feed w = NoData e :: rest ->
  sample w = Exc (UnboundLocalError "data_dict") (set_gp_feed rest w).
Proof.
  intros Hs He Hf.
  unfold sample, bind, is_streaming, get_gp. rewrite Hs, Hf.
  destruct e; try reflexivity. contradiction.
Qed.

(** ** Recording guards *)

(** C10. While a recording is active, [start_recording] logs an error and
    changes nothing else: the recording, project and participant ids stay,
    and no call reaches the tracker link.  With no active recording,
    [stop_recording] does the same.  When a recording is active and the
    link answers both calls, [stop_recording] stops it, waits for it to be
    done and resets [current_recording_id] to [None]. *)
Theorem recording_guards (w : @World num) :
  (forall rid, current_recording_id w = Some rid ->
     exists w',
       start_recording w = Ret tt w'
       /\ current_recording_id w' = current_recording_id w
       /\ current_project_id w' = current_project_id w
       /\ current_participant_id w' = current_participant_id w
       /\ calls w' = calls w
       /\ logs w'
          = logs w
            ++ [LogError "The Tobii Pro Glasses is already recording!"])
  /\
  (current_recording_id w = None ->
     exists w',
       stop_recording w = Ret tt w'
       /\ current_recording_id w' = current_recording_id w
       /\ current_project_id w' = current_project_id w
       /\ current_participant_id w' = current_participant_id w
       /\ calls w' = calls w
       /\ logs w' = logs w ++ [LogError "There is no recordings started!"])
  /\
  (forall rid done,
     current_recording_id w = Some rid ->
     stop_recording_rpc (link w) rid = Ok tt ->
     wait_until_recording_is_done (link w) rid = Ok done ->
     exists w',
       stop_recording w = Ret tt w'
       /\ current_recording_id w' = None
       /\ current_project_id w' = current_project_id w
       /\ current_participant_id w' = current_participant_id w
       /\ calls w'
          = calls w ++ [StopRecording rid; WaitUntilRecordingIsDone rid]
       /\ logs w' = logs w).
Proof.
  repeat apply conj.
  - intros rid Hr. unfold start_recording, bind. rewrite Hr.
    eexists. split; [reflexivity|]. cbn. repeat split; auto.
  - intros Hr. unfold stop_recording, bind. rewrite Hr.
    eexists. split; [reflexivity|]. cbn. repeat split; auto.
  - intros rid done Hr Hstop Hwait.
    unfold stop_recording, bind, call_link. rewrite Hr.
    cbn [link set_calls]. rewrite Hstop. cbn [lift ret link set_calls].
    rewrite Hwait. cbn [lift ret].
    eexists. split; [reflexivity|]. cbn. repeat split; auto.
    rewrite <- app_assoc. reflexivity.
Qed.

(** ** Angular velocity *)

Lemma math_has_no_abs : math_getattr "abs" = Err (AttributeError "abs").
Proof. reflexivity. Qed.

(** C4 on the code.  [calculate_angular_velocity] never returns a value:
    its last statement looks up [math.abs], which the [math] module does
    not have.  On two windows of three well-formed samples, whatever their
    coordinates and time stamps, the call raises [AttributeError]. *)
Theorem calculate_angular_velocity_raises :
  (forall (gp3_samples eye_samples : list pyval) (v : num),
     calculate_angular_velocity gp3_samples eye_samples <> Ok v)
  /\
  (forall x0 y0 z0 x1 y1 z1 x2 y2 z2 t0 t1 t2 i0 i1 i2
          a0 b0 c0 a1 b1 c1 a2 b2 c2 u0 u1 u2 j0 j1 j2,
     calculate_angular_velocity
       [PDict (mkSample "gp3" [x0; y0; z0] t0 i0);
        PDict (mkSample "gp3" [x1; y1; z1] t1 i1);
        PDict (mkSample "gp3" [x2; y2; z2] t2 i2)]
       [PDict (mkSample "pc" [a0; b0; c0] u0 j0);
        PDict (mkSample "pc" [a1; b1; c1] u1 j1);
        PDict (mkSample "pc" [a2; b2; c2] u2 j2)]
     = Err (AttributeError "abs")).
Proof.
  split.
  - intros gp3_samples eye_samples v. unfold calculate_angular_velocity.
    repeat match goal with
           | |- res_bind ?r _ <> _ =>
               let E := fresh "E" in
               destruct r eqn:E; cbn [res_bind]; [|discriminate]
           end.
    rewrite math_has_no_abs in *. discriminate.
  - intros. reflexivity.
Qed.

(** ** Saccade detection *)

Lemma saccade_start_skipped (fuel : nat) (w : World) :
  String.eqb (eventdetection w) "native" = false ->
  wait_for_saccade_start fuel w = Ret None w.
Proof.
  intros Hnat. unfold wait_for_saccade_start, bind. rewrite Hnat.
  reflexivity.
Qed.

(** One round of the loop of [wait_for_saccade_start], when it runs: a
    valid sample that differs from the previous one, moved by more than
    the noise, and faster or more accelerated than the thresholds, ends
    the loop with the clock reading taken then and the coordinates of the
    previous sample. *)
Lemma saccade_start_loop_fires (fuel : nat) (w : World) (prevpos : pyval)
    (t0 v0 t1 stime sx sy v1 a : num) (r : RawData) (s : Sample)
    (rest : list RawData) (later pc : list num) :
  streaming w = true ->
  gp_feed w = r :: rest ->
  clock_feed w = t1 :: stime :: later ->
  delivered_gp r = Some s ->
  gp_valid s = true ->
  getitem prevpos "gp" = Ok pc ->
  list_eq (s_coords s) pc = false ->
  displacement (PDict s) prevpos 0 = Ok sx ->
  displacement (PDict s) prevpos 1 = Ok sy ->
  larger_than_noise (cfg w) sx sy = Ok true ->
  n_div (n_root (n_add (n_pow2 sx) (n_pow2 sy))) (n_sub t1 t0) = Ok v1 ->
  n_div (n_sub v1 v0) (n_sub t1 t0) = Ok a ->
  n_gtb v1 (pxspdtresh (cfg w)) || n_gtb a (pxacctresh (cfg w)) = true ->
  exists l,
    saccade_start_loop (S fuel) prevpos t0 v0 w
    = Ret (stime, pc) (set_logs l (set_clock_feed later (set_gp_feed rest w))).
Proof.
  intros Hs Hf Hc Hd Hv Hp Hne Hsx Hsy Hbig Hv1 Ha Hab.
  assert (Hk : getitem (PDict s) "gp" = Ok (s_coords s)).
  { destruct r as [c t g | e]; cbn in Hd.
    - injection Hd as <-. reflexivity.
    - destruct e; try discriminate. injection Hd as <-. reflexivity. }
  cbn [saccade_start_loop]. unfold bind at 1.
  destruct (sample_delivers w r rest s Hs Hf Hd) as [l ->].
  unfold bind at 1.
  rewrite (clock_reads _ t1 (stime :: later)) by (cbn; exact Hc).
  unfold bind at 1. unfold valid_and_changed. unfold bind at 1.
  rewrite (is_valid_gp_delivered r s _ Hd), Hv.
  rewrite Hk, Hp. cbn [res_bind]. rewrite Hne. cbn [negb lift ret].
  unfold bind at 1. rewrite Hsx. cbn [lift ret].
  unfold bind at 1. rewrite Hsy. cbn [lift ret].
  unfold bind at 1.
  cbn [cfg set_logs set_gp_feed set_clock_feed].
  rewrite Hbig. cbn [lift ret].
  unfold bind at 1. rewrite Hv1. cbn [lift ret].
  unfold bind at 1. rewrite Ha. cbn [lift ret].
  unfold bind at 1.
  cbn [cfg set_logs set_gp_feed set_clock_feed].
  rewrite Hab.
  unfold bind at 1. unfold copy_gp. rewrite Hp. cbn [lift ret].
  unfold bind at 1.
  rewrite (clock_reads _ stime later) by reflexivity.
  exists l. reflexivity.
Qed.

(** C2 on the code.  Whatever detection type is requested,
    [set_detection_type] leaves ['pygaze'] in [self.eventdetection], and
    with it [wait_for_saccade_start] returns [None] at once: no sample is
    polled and the clock is not read. *)
Theorem saccade_start_pygaze_returns_none (requested : string) (fuel : nat)
    (w : World) :
  exists w0,
    set_detection_type requested w = Ret ("pygaze", "pygaze", "pygaze") w0
    /\ eventdetection w0 = "pygaze"
    /\ wait_for_saccade_start fuel w0 = Ret None w0.
Proof.
  unfold set_detection_type, bind.
  destruct (String.eqb requested "native");
    (eexists; split; [reflexivity|]; split; [reflexivity|];
     apply saccade_start_skipped; reflexivity).
Qed.

Lemma saccade_end_distance_raises (prevpos : pyval) (spos : list num) :
  forall v,
    (let? p := getitem prevpos "gp" in
     let? p0 := index p 0 in
     let? sg := list_getitem_str spos "gp" in
     let? s0 := index sg 0 in
     let? p1 := index p 1 in
     let? s1 := index sg 1 in
     Ok (n_root (n_add (n_pow2 (n_sub p0 s0)) (n_pow2 (n_sub p1 s1)))))%res
    <> Ok v.
Proof.
  intros v. destruct (getitem prevpos "gp") as [p|e]; cbn [res_bind];
    [|discriminate].
  destruct (index p 0) as [p0|e]; cbn [res_bind]; discriminate.
Qed.

(** One round of the loop of [wait_for_saccade_end], were it reached: a
    valid sample that differs from the previous one ends the loop when
    [v1 < pxspdtresh] and [-pxacctresh < a < 0], with the clock reading
    taken then and the coordinates of the sample; a sample equal to the
    previous one only becomes the previous sample. *)
Lemma saccade_end_loop_round (fuel : nat) (w : World) (prevpos : pyval)
    (t0 v0 t1 : num) (r : RawData) (s : Sample) (rest : list RawData)
    (later spos pc : list num) :
  streaming w = true ->
  gp_feed w = r :: rest ->
  clock_feed w = t1 :: later ->
  delivered_gp r = Some s ->
  gp_valid s = true ->
  getitem prevpos "gp" = Ok pc ->
  (list_eq (s_coords s) pc = true ->
   exists l,
     saccade_end_loop (S fuel) spos prevpos t0 v0 w
     = saccade_end_loop fuel spos (PDict s) t0 v0
         (set_logs l (set_clock_feed later (set_gp_feed rest w))))
  /\
  (forall sx sy v1 a etime later',
     list_eq (s_coords s) pc = false ->
     later = etime :: later' ->
     displacement (PDict s) prevpos 0 = Ok sx ->
     displacement (PDict s) prevpos 1 = Ok sy ->
     n_div (n_root (n_add (n_pow2 sx) (n_pow2 sy))) (n_sub t1 t0) = Ok v1 ->
     n_div (n_sub v1 v0) (n_sub t1 t0) = Ok a ->
     n_ltb v1 (pxspdtresh (cfg w))
     && (n_gtb a (n_mul minus_one (pxacctresh (cfg w)))
         && n_ltb a (n_of_Z 0)) = true ->
     exists l,
       saccade_end_loop (S fuel) spos prevpos t0 v0 w
       = Ret (etime, spos, s_coords s)
             (set_logs l (set_clock_feed later' (set_gp_feed rest w)))).
Proof.
  intros Hs Hf Hc Hd Hv Hp.
  assert (Hk : getitem (PDict s) "gp" = Ok (s_coords s)).
  { destruct r as [c t g | e]; cbn in Hd.
    - injection Hd as <-. reflexivity.
    - destruct e; try discriminate. injection Hd as <-. reflexivity. }
  destruct (sample_delivers w r rest s Hs Hf Hd) as [l Hl].
  split.
  - intros Heq. cbn [saccade_end_loop]. unfold bind at 1. rewrite Hl.
    unfold bind at 1.
    rewrite (clock_reads _ t1 later) by (cbn; exact Hc).
    unfold bind at 1. unfold valid_and_changed. unfold bind at 1.
    rewrite (is_valid_gp_delivered r s _ Hd), Hv.
    rewrite Hk, Hp. cbn [res_bind]. rewrite Heq. cbn [negb lift ret].
    exists l. reflexivity.
  - intros sx sy v1 a etime later' Hne -> Hsx Hsy Hv1 Ha Hbelow.
    cbn [saccade_end_loop]. unfold bind at 1. rewrite Hl.
    unfold bind at 1.
    rewrite (clock_reads _ t1 (etime :: later')) by (cbn; exact Hc).
    unfold bind at 1. unfold valid_and_changed. unfold bind at 1.
    rewrite (is_valid_gp_delivered r s _ Hd), Hv.
    rewrite Hk, Hp. cbn [res_bind]. rewrite Hne. cbn [negb lift ret].
    unfold bind at 1. rewrite Hsx. cbn [lift ret].
    unfold bind at 1. rewrite Hsy. cbn [lift ret].
    unfold bind at 1. rewrite Hv1. cbn [lift ret].
    unfold bind at 1. rewrite Ha. cbn [lift ret].
    unfold bind at 1.
    cbn [cfg set_logs set_gp_feed set_clock_feed].
    rewrite Hbelow.
    unfold bind at 1. unfold copy_gp. rewrite Hk. cbn [lift ret].
    unfold bind at 1.
    rewrite (clock_reads _ etime later') by reflexivity.
    exists l. reflexivity.
Qed.

(** C6 on the code.  [wait_for_saccade_end] never returns its triple.
    With the detection type ['pygaze'] the saccade start yields [None] and
    unpacking it raises [TypeError] before a sample is polled; when the
    saccade start does return a pair, its position is a list of
    coordinates, and [spos['gp']] raises [TypeError] before the loop. *)
Theorem saccade_end_never_returns (fuel : nat) (w : World) :
  (String.eqb (eventdetection w) "native" = false ->
   wait_for_saccade_end fuel w = Exc TypeError w)
  /\
  (forall r w', wait_for_saccade_end fuel w <> Ret r w').
Proof.
  split.
  - intros Hnat. unfold wait_for_saccade_end. unfold bind at 1.
    unfold warn_native. rewrite Hnat. unfold bind at 1.
    rewrite (saccade_start_skipped fuel w Hnat). reflexivity.
  - intros r w'. unfold wait_for_saccade_end. unfold bind at 1.
    destruct (warn_native _ w) as [[] w0| |]; try discriminate.
    unfold bind at 1.
    destruct (wait_for_saccade_start fuel w0) as [[[t0 spos]|] w1| |];
      try discriminate.
    unfold bind at 1.
    destruct (sample w1) as [prevpos w2| |]; try discriminate.
    unfold bind at 1.
    destruct (wait_valid_gp fuel prevpos w2) as [prevpos' w3| |];
      try discriminate.
    unfold bind at 1.
    destruct (clock_get_time w3) as [t1 w4| |]; try discriminate.
    unfold bind at 1.
    pose proof (saccade_end_distance_raises prevpos' spos) as Hd.
    match goal with
    | |- context [lift ?e] => destruct e as [v|e'] eqn:E
    end.
    + exfalso. exact (Hd v eq_refl).
    + cbn. discriminate.
Qed.

(** ** Window of the experimental detector *)

(** The retry loop is left as soon as the 2D gaze sample is valid, whatever
    the 3D gaze sample and the eye sample are. *)
Lemma retry_fetch_keeps_valid_gaze (eye : M pyval) (fuel : nat)
    (g : Sample) (spos epos : pyval) (w : World) :
  s_key g = "gp" ->
  gp_valid g = true ->
  retry_fetch eye (S fuel) (PDict g, spos, epos) w
  = Ret (PDict g, spos, epos) w.
Proof.
  intros Hk Hv. cbn [retry_fetch]. unfold bind at 1.
  unfold is_valid_sample. cbn. unfold bind, getitem. rewrite Hk. cbn.
  unfold gp_valid in Hv. apply negb_true_iff in Hv. rewrite Hv.
  reflexivity.
Qed.

(** * Further properties of the code *)

(** ** The experimental detector *)

Lemma angular_velocity_never_ok (gp3_samples eye_samples : list pyval)
    (v : num) :
  calculate_angular_velocity gp3_samples eye_samples <> Ok v.
Proof.
  unfold calculate_angular_velocity.
  repeat match goal with
         | |- res_bind ?r _ <> _ =>
             let E := fresh "E" in
             destruct r eqn:E; cbn [res_bind]; [|discriminate]
         end.
  discriminate.
Qed.

Lemma windows_angular_velocity_never_returns (w w' : World) (v : num) :
  windows_angular_velocity w <> Ret v w'.
Proof.
  unfold windows_angular_velocity.
  destruct (calculate_angular_velocity (gp3_samples w) (eye_samples w))
    as [v0|e] eqn:E.
  - exfalso. exact (angular_velocity_never_ok _ _ v0 E).
  - cbn. discriminate.
Qed.

Lemma fixation_start_experimental_never_returns (eye : M pyval)
    (fuel : nat) :
  forall (w w' : World) (r : FixResult),
    fixation_start_experimental eye fuel w <> Ret r w'.
Proof.
  induction fuel as [|fuel IH]; intros w w' r; [discriminate|].
  cbn [fixation_start_experimental]. unfold bind at 1.
  destruct (update_windows eye (S fuel) w) as [[] w1| |]; try discriminate.
  unfold bind at 1.
  destruct (windows_same_event w1) as [[|] w2| |]; try discriminate.
  - unfold bind at 1.
    destruct (windows_angular_velocity w2) as [v w3| |] eqn:E;
      try discriminate.
    exfalso. exact (windows_angular_velocity_never_returns _ _ _ E).
  - apply IH.
Qed.


(** ** Detectors on a tracker that is not streaming *)

Lemma sample_not_streaming (w : World) :
  streaming w = false ->
  sample w
  = Ret PNone
      (set_logs (logs w ++ [LogError "The eye-tracker is not in capturing mode."])
         w).
Proof.
  intros Hs. unfold sample, bind, is_streaming. rewrite Hs. reflexivity.
Qed.

Lemma wait_valid_gp_none (fuel : nat) (w : World) :
  wait_valid_gp (S fuel) PNone w = Exc TypeError w.
Proof. reflexivity. Qed.

(** X3.  On a tracker that is not streaming the PyGaze fixation detectors do
    not wait: [sample] logs that the tracker is not capturing and returns
    [None], and the validity test of [None] raises [TypeError].  No datum
    of the link is taken and the clock is not read. *)
Theorem fixation_detectors_need_streaming (eye : M pyval) (fuel : nat)
    (w : World) :
  streaming w = false ->
  fuel <> 0%nat ->
  (exists l,
     wait_for_fixation_start eye false fuel w
     = Exc TypeError
         (set_logs
            (logs w ++ l
             ++ [LogError "The eye-tracker is not in capturing mode."]) w))
  /\
  (exists l,
     wait_for_fixation_end eye false fuel w
     = Exc TypeError
         (set_logs
            (logs w ++ l
             ++ [LogError "The eye-tracker is not in capturing mode."]) w)).
Proof.
  intros Hs Hfuel. destruct fuel as [|fuel]; [contradiction|].
  assert (Hstart : forall w0 : World,
             streaming w0 = false ->
             exists l,
               wait_for_fixation_start eye false (S fuel) w0
               = Exc TypeError
                   (set_logs
                      (logs w0 ++ l
                       ++ [LogError "The eye-tracker is not in capturing mode."])
                      w0)).
  { intros w0 Hs0. unfold wait_for_fixation_start. unfold bind at 1.
    unfold warn_native.
    destruct (String.eqb (eventdetection w0) "native"); cbn [negb print];
      unfold fixation_start_pygaze; unfold bind at 1;
      rewrite sample_not_streaming by exact Hs0;
      unfold bind at 1; rewrite wait_valid_gp_none;
      cbn [logs set_logs].
    - eexists [_]. rewrite <- app_assoc. reflexivity.
    - exists []. reflexivity. }
  split.
  - apply Hstart. exact Hs.
  - unfold wait_for_fixation_end. unfold bind at 1. unfold warn_native.
    destruct (String.eqb (eventdetection w) "native") eqn:En;
      cbn [negb print]; unfold bind at 1.
    + match goal with
      | |- context [wait_for_fixation_start eye false (S fuel) ?w0] =>
          destruct (Hstart w0 Hs) as [l ->]
      end.
      cbn [logs set_logs]. eexists (_ :: l).
      rewrite <- app_assoc. reflexivity.
    + destruct (Hstart w Hs) as [l ->]. exists l. reflexivity.
Qed.

(** ** Sampling *)

(** X4.  Whatever the subscripts of [sample] and [sample3D] raise other than
    [IndexError] is lost: the name [data_dict] is unbound when
    [finally: return data_dict] runs, and the call raises
    [UnboundLocalError] in its place.  The datum of the link is used up. *)
Theorem sampling_replaces_other_exceptions (w : World) (e : exn)
    (rest : list RawData) :
  streaming w = true ->
  e <> IndexError ->
  (gp_feed w = NoData e :: rest ->
   sample w = Exc (UnboundLocalError "data_dict") (set_gp_feed rest w))
  /\
  (gp3_feed w = NoData e :: rest ->
   sample3D w = Exc (UnboundLocalError "data_dict") (set_gp3_feed rest w)).
Proof.
  intros Hs He. split; intros Hf.
  - unfold sample, bind, is_streaming, get_gp. rewrite Hs, Hf.
    destruct e; try reflexivity. contradiction.
  - unfold sample3D, bind, is_streaming, get_gp3. rewrite Hs, Hf.
    destruct e; try reflexivity. contradiction.
Qed.

(** ** Recording *)

(** X5.  [start_recording] with no active recording.  When the link creates
    and starts the recording, its id becomes [current_recording_id], the
    two calls reach the link in that order and the start is logged.  When
    the link creates the recording and fails to start it, an [Exception]
    is raised, but the id of the recording that did not start stays in
    [current_recording_id], so that a second [start_recording] is refused
    as a recording in progress.  When the link fails to create the
    recording, its exception leaves the method and no id is set. *)
Theorem start_recording_outcomes (w : @World num) :
  current_recording_id w = None ->
  (forall rid,
     create_recording (link w) (current_participant_id w) = Ok rid ->
     start_recording_rpc (link w) rid = Ok tt ->
     exists w',
       start_recording w = Ret tt w'
       /\ current_recording_id w' = Some rid
       /\ calls w'
          = calls w ++ [CreateRecording (current_participant_id w);
                        StartRecording rid]
       /\ logs w'
          = logs w ++ [LogDebug ("Recording " ++ rid ++ " started!")%string])
  /\
  (forall rid e,
     create_recording (link w) (current_participant_id w) = Ok rid ->
     start_recording_rpc (link w) rid = Err e ->
     exists w',
       start_recording w
       = Exc (Exception "Error in libtobiiproglasses.TobiiProGlassesController.start_recording: failed to start recording") w'
       /\ current_recording_id w' = Some rid
       /\ calls w'
          = calls w ++ [CreateRecording (current_participant_id w);
                        StartRecording rid]
       /\ start_recording w'
          = Ret tt
              (set_logs
                 (logs w'
                  ++ [LogError "The Tobii Pro Glasses is already recording!"])
                 w'))
  /\
  (forall e,
     create_recording (link w) (current_participant_id w) = Err e ->
     exists w',
       start_recording w = Exc e w'
       /\ current_recording_id w' = None
       /\ calls w' = calls w ++ [CreateRecording (current_participant_id w)]).
Proof.
  intros Hnone. repeat apply conj.
  - intros rid Hcreate Hstart.
    unfold start_recording, bind, call_link. rewrite Hnone.
    rewrite Hcreate. cbn [lift ret link set_calls set_current_recording_id].
    rewrite Hstart. cbn [lift ret].
    eexists. split; [reflexivity|]. cbn. repeat split.
    rewrite <- app_assoc. reflexivity.
  - intros rid e Hcreate Hstart.
    unfold start_recording, bind, call_link. rewrite Hnone.
    rewrite Hcreate. cbn [lift ret link set_calls set_current_recording_id].
    rewrite Hstart. cbn [lift raise].
    eexists. split; [reflexivity|]. cbn. repeat split.
    rewrite <- app_assoc. reflexivity.
  - intros e Hcreate.
    unfold start_recording, bind, call_link. rewrite Hnone.
    rewrite Hcreate. cbn [lift raise].
    eexists. split; [reflexivity|]. cbn. split; [exact Hnone|reflexivity].
Qed.

Lemma start_recording_succeeds (w : @World num) (rid : string) :
  current_recording_id w = None ->
  create_recording (link w) (current_participant_id w) = Ok rid ->
  start_recording_rpc (link w) rid = Ok tt ->
  exists w',
    start_recording w = Ret tt w'
    /\ link w' = link w
    /\ current_recording_id w' = Some rid
    /\ current_participant_id w' = current_participant_id w
    /\ current_project_id w' = current_project_id w
    /\ calls w'
       = calls w ++ [CreateRecording (current_participant_id w);
                     StartRecording rid].
Proof.
  intros Hnone Hcreate Hstart.
  unfold start_recording, bind, call_link. rewrite Hnone.
  rewrite Hcreate. cbn [lift ret link set_calls set_current_recording_id].
  rewrite Hstart. cbn [lift ret].
  eexists. split; [reflexivity|]. cbn. repeat split.
  rewrite <- app_assoc. reflexivity.
Qed.

Lemma stop_recording_succeeds (w : @World num) (rid : string) (done : bool) :
  current_recording_id w = Some rid ->
  stop_recording_rpc (link w) rid = Ok tt ->
  wait_until_recording_is_done (link w) rid = Ok done ->
  exists w',
    stop_recording w = Ret tt w'
    /\ current_recording_id w' = None
    /\ current_participant_id w' = current_participant_id w
    /\ current_project_id w' = current_project_id w
    /\ calls w'
       = calls w ++ [StopRecording rid; WaitUntilRecordingIsDone rid].
Proof.
  intros Hr Hstop Hwait.
  unfold stop_recording, bind, call_link. rewrite Hr.
  cbn [link set_calls]. rewrite Hstop. cbn [lift ret link set_calls].
  rewrite Hwait. cbn [lift ret].
  eexists. split; [reflexivity|]. cbn. repeat split.
  rewrite <- app_assoc. reflexivity.
Qed.

Lemma stop_recording_idle (w : @World num) :
  current_recording_id w = None ->
  stop_recording w
  = Ret tt
      (set_logs (logs w ++ [LogError "There is no recordings started!"]) w).
Proof.
  intros Hr. unfold stop_recording, bind. rewrite Hr. reflexivity.
Qed.

(** X6.  A recording that is started and then stopped: the link sees the
    creation, the start, the stop and the wait, in this order; afterwards
    no recording is active, the participant and project ids are the ones
    before, and a further [stop_recording] is refused with an error
    message and reaches the link no more. *)
Theorem start_then_stop_recording (w : @World num) (rid : string)
    (done : bool) :
  current_recording_id w = None ->
  create_recording (link w) (current_participant_id w) = Ok rid ->
  start_recording_rpc (link w) rid = Ok tt ->
  stop_recording_rpc (link w) rid = Ok tt ->
  wait_until_recording_is_done (link w) rid = Ok done ->
  exists w',
    bind start_recording (fun _ => stop_recording) w = Ret tt w'
    /\ current_recording_id w' = None
    /\ current_participant_id w' = current_participant_id w
    /\ current_project_id w' = current_project_id w
    /\ calls w'
       = calls w ++ [CreateRecording (current_participant_id w);
                     StartRecording rid; StopRecording rid;
                     WaitUntilRecordingIsDone rid]
    /\ stop_recording w'
       = Ret tt
           (set_logs (logs w' ++ [LogError "There is no recordings started!"])
              w').
Proof.
  intros Hnone Hcreate Hstart Hstop Hwait.
  destruct (start_recording_succeeds w rid Hnone Hcreate Hstart)
    as [w1 [E1 [Hl [Hr1 [Hp1 [Hj1 Hc1]]]]]].
  destruct (stop_recording_succeeds w1 rid done Hr1)
    as [w2 [E2 [Hr2 [Hp2 [Hj2 Hc2]]]]].
  { rewrite Hl. exact Hstop. }
  { rewrite Hl. exact Hwait. }
  exists w2. unfold bind. rewrite E1. split; [exact E2|].
  split; [exact Hr2|]. split; [congruence|]. split; [congruence|].
  split.
  - rewrite Hc2, Hc1, <- app_assoc. reflexivity.
  - apply stop_recording_idle. exact Hr2.
Qed.

(** ** Event correlator on sequences of different lengths *)

(** X7.  [is_same_event] looks at the common prefix of its three sequences
    only, as [zip] does: samples beyond the shortest sequence are never
    compared, and when one sequence is empty the answer is [True]. *)
Theorem is_same_event_common_prefix :
  forall gaze gp3 eye : list (@pyval num),
    (let n := Nat.min (List.length gaze)
                (Nat.min (List.length gp3) (List.length eye)) in
     is_same_event gaze gp3 eye
     = is_same_event (firstn n gaze) (firstn n gp3) (firstn n eye))
    /\ (gaze = [] \/ gp3 = [] \/ eye = [] ->
        is_same_event gaze gp3 eye = Ok true).
Proof.
  intros gaze gp3 eye. split.
  - revert gp3 eye.
    induction gaze as [|g gaze IH]; intros [|p gp3] [|e eye];
      try reflexivity.
    cbn [List.length Nat.min firstn is_same_event].
    destruct (get_gidx g) as [gi|]; cbn [res_bind]; [|reflexivity].
    destruct (get_gidx p) as [pi|]; cbn [res_bind]; [|reflexivity].
    destruct (Z.eqb gi pi); [|reflexivity].
    destruct (get_gidx e) as [ei|]; cbn [res_bind]; [|reflexivity].
    destruct (Z.eqb pi ei); [|reflexivity].
    apply IH.
  - intros [-> | [-> | ->]]; [reflexivity| |].
    + destruct gaze; reflexivity.
    + destruct gaze; [reflexivity|]. destruct gp3; reflexivity.
Qed.

(** ** Event dispatcher *)

(** X8.  [wait_for_event]: a code outside 3..8 raises an [Exception] that
    names the code, and nothing else happens; the blink codes 3 and 4
    print that the function is not supported and return [None] without
    polling; with the detection type ['pygaze'], code 5 returns [None]
    silently and code 6 raises [TypeError], both without polling. *)
Theorem wait_for_event_dispatch (eye : M pyval) (event : Z) (fuel : nat)
    (w : World) :
  ((event < 3 \/ 8 < event)%Z ->
   wait_for_event eye event fuel w
   = Exc (Exception
            ("Error in libtobii.TobiiTracker.wait_for_event: eventcode "
             ++ str_of_Z event ++ " is not supported")%string) w)
  /\
  (event = 3%Z \/ event = 4%Z ->
   wait_for_event eye event fuel w
   = Ret NoOutcome
       (set_logs (logs w ++ [Printed "function not supported yet"]) w))
  /\
  (String.eqb (eventdetection w) "native" = false ->
   wait_for_event eye 5 fuel w = Ret NoOutcome w
   /\ wait_for_event eye 6 fuel w = Exc TypeError w).
Proof.
  repeat apply conj.
  - intros Hout. unfold wait_for_event.
    repeat match goal with
           | |- context [Z.eqb event ?k] =>
               destruct (Z.eqb_spec event k); [lia|]
           end.
    reflexivity.
  - intros [-> | ->]; reflexivity.
  - intros Hnat. split.
    + unfold wait_for_event. cbn [Z.eqb Pos.eqb]. unfold bind at 1.
      rewrite (saccade_start_skipped fuel w Hnat). reflexivity.
    + unfold wait_for_event. cbn [Z.eqb Pos.eqb]. unfold bind at 1.
      unfold wait_for_saccade_end. unfold bind at 1.
      unfold warn_native. rewrite Hnat. unfold bind at 1.
      rewrite (saccade_start_skipped fuel w Hnat). reflexivity.
Qed.

(** ** What the dispersion detectors report *)

Lemma sample_inv (w w' : World) (v : pyval) :
  sample w = Ret v w' ->
  clock_feed w' = clock_feed w
  /\ incl (gp_feed w') (gp_feed w)
  /\ (v = PNone
      \/ exists r s, In r (gp_feed w) /\ delivered_gp r = Some s
                     /\ v = PDict s).
Proof.
  unfold sample, bind, is_streaming, get_gp.
  destruct (streaming w).
  - destruct (gp_feed w) as [|r rest] eqn:Hf; [discriminate|].
    destruct r as [c t g | e].
    + cbn. intros E. injection E as <- <-. cbn.
      split; [reflexivity|]. split; [apply incl_tl, incl_refl|].
      right. exists (Data c t g), (mkSample "gp" c t g).
      split; [left; reflexivity|]. split; reflexivity.
    + destruct e; cbn; try discriminate.
      intros E. injection E as <- <-. cbn.
      split; [reflexivity|]. split; [apply incl_tl, incl_refl|].
      right. exists (NoData IndexError), (sentinel_sample "gp" sentinel_gp).
      split; [left; reflexivity|]. split; reflexivity.
  - cbn. intros E. injection E as <- <-. cbn.
    split; [reflexivity|]. split; [apply incl_refl|]. left. reflexivity.
Qed.

Lemma is_valid_gp_inv (w w' : World) (v : pyval) (b : bool) :
  is_valid_sample v "gp" w = Ret b w' ->
  w' = w
  /\ (b = true ->
      exists s, v = PDict s /\ s_key s = "gp" /\ gp_valid s = true).
Proof.
  unfold is_valid_sample. cbn. unfold bind, getitem.
  destruct v as [|s]; [discriminate|].
  destruct (String.eqb_spec "gp" (s_key s)) as [Hk|Hk]; [|discriminate].
  cbn. unfold gp_valid.
  destruct (list_eq (s_coords s) sentinel_gp) eqn:El; cbn;
    intros E; injection E as <- <-; (split; [reflexivity|]).
  - discriminate.
  - intros _. exists s. split; [reflexivity|]. split; [congruence|].
    rewrite El. reflexivity.
Qed.

Lemma clock_inv (w w' : World) (t : num) :
  clock_get_time w = Ret t w' ->
  In t (clock_feed w)
  /\ incl (clock_feed w') (clock_feed w)
  /\ gp_feed w' = gp_feed w.
Proof.
  unfold clock_get_time.
  destruct (clock_feed w) as [|t' later] eqn:Hc; [discriminate|].
  intros E. injection E as <- <-. cbn.
  split; [left; reflexivity|]. split; [apply incl_tl, incl_refl|reflexivity].
Qed.

Lemma polled_valid_incl (feed feed' : list RawData) (v : pyval) :
  incl feed feed' -> polled_valid feed v -> polled_valid feed' v.
Proof.
  intros Hi [r [s [Hin Hrest]]]. exists r, s. split; [apply Hi, Hin|].
  exact Hrest.
Qed.

(** A value that [sample] returned and [is_valid_sample] accepted. *)
Lemma polled_and_valid (w w1 w2 : World) (v : pyval) :
  sample w = Ret v w1 ->
  is_valid_sample v "gp" w1 = Ret true w2 ->
  polled_valid (gp_feed w) v.
Proof.
  intros Hsam Hval.
  destruct (sample_inv _ _ _ Hsam) as [_ [_ Hfrom]].
  destruct (is_valid_gp_inv _ _ _ _ Hval) as [_ Hv].
  destruct (Hv eq_refl) as [s [-> [_ Hgv]]].
  destruct Hfrom as [Hnone | [r [s' [Hin [Hd E]]]]]; [discriminate|].
  injection E as <-. exists r, s. repeat split; assumption.
Qed.

Lemma wait_valid_gp_inv (fuel : nat) :
  forall (w w' : World) (pos v : pyval),
    wait_valid_gp fuel pos w = Ret v w' ->
    clock_feed w' = clock_feed w
    /\ incl (gp_feed w') (gp_feed w)
    /\ (polled_valid (gp_feed w) v
        \/ (v = pos /\ exists w0, is_valid_sample pos "gp" w0 = Ret true w0)).
Proof.
  induction fuel as [|fuel IH]; intros w w' pos v; [discriminate|].
  cbn [wait_valid_gp]. unfold bind at 1.
  destruct (is_valid_sample pos "gp" w) as [b w1| |] eqn:Ev;
    try discriminate.
  destruct (is_valid_gp_inv _ _ _ _ Ev) as [-> _].
  destruct b.
  - intros E. injection E as <- <-.
    split; [reflexivity|]. split; [apply incl_refl|].
    right. split; [reflexivity|]. exists w. exact Ev.
  - unfold bind at 1.
    destruct (sample w) as [pos' w2| |] eqn:Es; try discriminate.
    intros E. destruct (IH _ _ _ _ E) as [Hc [Hi Hv]].
    destruct (sample_inv _ _ _ Es) as [Hc2 [Hi2 _]].
    split; [congruence|]. split; [eapply incl_tran; eassumption|].
    left. destruct Hv as [Hp | [-> [w0 Hw0]]].
    + eapply polled_valid_incl; eassumption.
    + destruct (is_valid_gp_inv _ _ _ _ Hw0) as [_ Hv0].
      destruct (Hv0 eq_refl) as [s [-> [_ Hgv]]].
      destruct (sample_inv _ _ _ Es) as [_ [_ Hfrom]].
      destruct Hfrom as [Hnone | [r [s' [Hin [Hd E']]]]]; [discriminate|].
      injection E' as <-. exists r, s. repeat split; assumption.
Qed.

Lemma fixation_start_loop_inv (fuel : nat) :
  forall (w w' : World) (spos : pyval) (t0 : num) (r : FixResult),
    fixation_start_loop fuel spos t0 w = Ret r w' ->
    incl (clock_feed w') (clock_feed w)
    /\ incl (gp_feed w') (gp_feed w)
    /\ exists ts sp,
         r = FixStart ts sp
         /\ ((sp = spos /\ ts = t0)
             \/ (polled_valid (gp_feed w) sp /\ In ts (clock_feed w))).
Proof.
  induction fuel as [|fuel IH]; intros w w' spos t0 r; [discriminate|].
  cbn [fixation_start_loop]. unfold bind at 1.
  destruct (sample w) as [npos w1| |] eqn:Es; try discriminate.
  destruct (sample_inv _ _ _ Es) as [Hc1 [Hi1 _]].
  unfold bind at 1.
  destruct (is_valid_sample npos "gp" w1) as [b w2| |] eqn:Ev;
    try discriminate.
  destruct (is_valid_gp_inv _ _ _ _ Ev) as [-> _].
  destruct b.
  - unfold bind at 1.
    destruct (too_far (cfg w1) npos spos) as [far|e]; cbn [lift ret raise];
      try discriminate.
    destruct far.
    + unfold bind at 1.
      destruct (clock_get_time w1) as [t w3| |] eqn:Ec; try discriminate.
      destruct (clock_inv _ _ _ Ec) as [Hin [Hc3 Hg3]].
      intros E. destruct (IH _ _ _ _ _ E) as [Hc [Hi [ts [sp [-> Hcase]]]]].
      split; [rewrite <- Hc1; eapply incl_tran; eassumption|].
      split; [rewrite Hg3 in Hi; eapply incl_tran; eassumption|].
      exists ts, sp. split; [reflexivity|]. right.
      destruct Hcase as [[-> ->] | [Hp Hts]].
      * split; [exact (polled_and_valid _ _ _ _ Es Ev)|].
        rewrite <- Hc1. exact Hin.
      * split.
        -- rewrite Hg3 in Hp. eapply polled_valid_incl; eassumption.
        -- rewrite <- Hc1. apply Hc3. exact Hts.
    + unfold bind at 1.
      destruct (clock_get_time w1) as [t1 w3| |] eqn:Ec; try discriminate.
      destruct (clock_inv _ _ _ Ec) as [Hin [Hc3 Hg3]].
      unfold bind at 1.
      cbn beta.
      destruct (held_long_enough (cfg w3) t0 t1).
      * intros E. injection E as <- <-.
        split; [rewrite <- Hc1; exact Hc3|].
        split; [rewrite Hg3; exact Hi1|].
        exists t0, spos. split; [reflexivity|]. left. split; reflexivity.
      * intros E.
        destruct (IH _ _ _ _ _ E) as [Hc [Hi [ts [sp [-> Hcase]]]]].
        split; [rewrite <- Hc1; eapply incl_tran; eassumption|].
        split; [rewrite Hg3 in Hi; eapply incl_tran; eassumption|].
        exists ts, sp. split; [reflexivity|].
        destruct Hcase as [Hsame | [Hp Hts]]; [left; exact Hsame|].
        right. split.
        -- rewrite Hg3 in Hp. eapply polled_valid_incl; eassumption.
        -- rewrite <- Hc1. apply Hc3. exact Hts.
  - intros E. destruct (IH _ _ _ _ _ E) as [Hc [Hi [ts [sp [-> Hcase]]]]].
    split; [rewrite <- Hc1; exact Hc|].
    split; [eapply incl_tran; eassumption|].
    exists ts, sp. split; [reflexivity|].
    destruct Hcase as [Hsame | [Hp Hts]]; [left; exact Hsame|].
    right. split.
    + eapply polled_valid_incl; eassumption.
    + rewrite <- Hc1. exact Hts.
Qed.

Lemma warn_native_inv (msg : string) (w w' : @World num) (u : unit) :
  warn_native msg w = Ret u w' ->
  gp_feed w' = gp_feed w /\ clock_feed w' = clock_feed w.
Proof.
  unfold warn_native, print.
  destruct (String.eqb (eventdetection w) "native");
    intros E; injection E as <- <-; split; reflexivity.
Qed.

Lemma fixation_end_loop_inv (fuel : nat) :
  forall (w w' : World) (spos : pyval) (u : unit),
    fixation_end_loop fuel spos w = Ret u w' ->
    clock_feed w' = clock_feed w /\ incl (gp_feed w') (gp_feed w).
Proof.
  induction fuel as [|fuel IH]; intros w w' spos u; [discriminate|].
  cbn [fixation_end_loop]. unfold bind at 1.
  destruct (sample w) as [npos w1| |] eqn:Es; try discriminate.
  destruct (sample_inv _ _ _ Es) as [Hc1 [Hi1 _]].
  unfold bind at 1.
  destruct (is_valid_sample npos "gp" w1) as [b w2| |] eqn:Ev;
    try discriminate.
  destruct (is_valid_gp_inv _ _ _ _ Ev) as [-> _].
  destruct b.
  - unfold bind at 1.
    destruct (too_far (cfg w1) npos spos) as [far|e]; cbn [lift ret raise];
      try discriminate.
    destruct far.
    + intros E. inversion E; subst. split; assumption.
    + intros E. destruct (IH _ _ _ _ E) as [Hc Hi].
      split; [congruence|eapply incl_tran; eassumption].
  - intros E. destruct (IH _ _ _ _ E) as [Hc Hi].
    split; [congruence|eapply incl_tran; eassumption].
Qed.

Lemma fixation_start_inv (eye : M pyval) (fuel : nat) (w w' : World)
    (r : FixResult) :
  wait_for_fixation_start eye false fuel w = Ret r w' ->
  incl (clock_feed w') (clock_feed w)
  /\ incl (gp_feed w') (gp_feed w)
  /\ exists ts sp,
       r = FixStart ts sp
       /\ polled_valid (gp_feed w) sp /\ In ts (clock_feed w).
Proof.
  unfold wait_for_fixation_start. unfold bind at 1.
  destruct (warn_native _ w) as [[] w0| |] eqn:Ew; try discriminate.
  destruct (warn_native_inv _ _ _ _ Ew) as [Hg0 Hc0].
  cbn [negb]. unfold fixation_start_pygaze. unfold bind at 1.
  destruct (sample w0) as [pos0 w1| |] eqn:Es; try discriminate.
  destruct (sample_inv _ _ _ Es) as [Hc1 [Hi1 _]].
  unfold bind at 1.
  destruct (wait_valid_gp fuel pos0 w1) as [spos w2| |] eqn:Ewv;
    try discriminate.
  destruct (wait_valid_gp_inv _ _ _ _ _ Ewv) as [Hc2 [Hi2 Hv]].
  assert (Hspos : polled_valid (gp_feed w) spos).
  { rewrite <- Hg0. destruct Hv as [Hp | [-> [wx Hwx]]].
    - eapply polled_valid_incl; eassumption.
    - destruct (is_valid_gp_inv _ _ _ _ Hwx) as [_ Hv0].
      destruct (Hv0 eq_refl) as [s [-> [_ Hgv]]].
      destruct (sample_inv _ _ _ Es) as [_ [_ Hfrom]].
      destruct Hfrom as [Hnone | [d [s' [Hin [Hd E']]]]]; [discriminate|].
      injection E' as <-. exists d, s. repeat split; assumption. }
  unfold bind at 1.
  destruct (clock_get_time w2) as [t0 w3| |] eqn:Ec; try discriminate.
  destruct (clock_inv _ _ _ Ec) as [Hin [Hc3 Hg3]].
  intros E.
  destruct (fixation_start_loop_inv _ _ _ _ _ _ E)
    as [Hc [Hi [ts [sp [-> Hcase]]]]].
  assert (Hclock : incl (clock_feed w3) (clock_feed w)).
  { rewrite <- Hc0, <- Hc1, <- Hc2. exact Hc3. }
  assert (Hgaze : incl (gp_feed w3) (gp_feed w)).
  { rewrite <- Hg0, Hg3. eapply incl_tran; eassumption. }
  split; [eapply incl_tran; eassumption|].
  split; [eapply incl_tran; eassumption|].
  exists ts, sp. split; [reflexivity|].
  destruct Hcase as [[-> ->] | [Hp Hts]].
  - split; [exact Hspos|]. rewrite <- Hc0, <- Hc1, <- Hc2. exact Hin.
  - split; [eapply polled_valid_incl; eassumption|]. apply Hclock, Hts.
Qed.

(** X2.  Whatever the samples, a fixation that the PyGaze detectors report is
    anchored on a sample that was polled from the link and is not the
    sentinel, and its time is a reading of the clock, never the time stamp
    of a sample: this holds for the start [{'ts', 'spos'}] and for the end
    [{'fixation_time', 'gaze_pos'}]. *)
Theorem dispersion_reports_polled_samples (eye : M pyval) (fuel : nat)
    (w w' : World) (r : FixResult) :
  (wait_for_fixation_start eye false fuel w = Ret r w' ->
   exists ts sp,
     r = FixStart ts sp
     /\ polled_valid (gp_feed w) sp /\ In ts (clock_feed w))
  /\
  (wait_for_fixation_end eye false fuel w = Ret r w' ->
   exists now sp,
     r = FixEnd now sp
     /\ polled_valid (gp_feed w) sp /\ In now (clock_feed w)).
Proof.
  split.
  - intros E. apply (fixation_start_inv eye fuel w w' r E).
  - unfold wait_for_fixation_end. unfold bind at 1.
    destruct (warn_native _ w) as [[] w0| |] eqn:Ew; try discriminate.
    destruct (warn_native_inv _ _ _ _ Ew) as [Hg0 Hc0].
    cbn [negb]. unfold bind at 1.
    destruct (wait_for_fixation_start eye false fuel w0) as [d w1| |] eqn:Es;
      try discriminate.
    destruct (fixation_start_inv _ _ _ _ _ Es)
      as [Hc1 [Hi1 [ts [sp [-> [Hp Hts]]]]]].
    unfold bind at 1. cbn [result_ts lift ret].
    unfold bind at 1. cbn [result_spos lift ret].
    unfold bind at 1.
    destruct (fixation_end_loop fuel sp w1) as [[] w2| |] eqn:El;
      try discriminate.
    destruct (fixation_end_loop_inv _ _ _ _ _ El) as [Hc2 Hi2].
    unfold bind at 1.
    destruct (clock_get_time w2) as [now w3| |] eqn:Ec; try discriminate.
    destruct (clock_inv _ _ _ Ec) as [Hin _].
    intros E. injection E as <- <-.
    exists now, sp. split; [reflexivity|].
    split; [rewrite <- Hg0; exact Hp|].
    rewrite <- Hc0. apply Hc1. rewrite <- Hc2. exact Hin.
Qed.

(** ** Eye position and pupil size *)

(** X9.  As the file stands, [eye_position] delivers no eye sample: while the
    tracker is streaming it subscripts the accessor method itself, which
    raises [TypeError] for each of the three values of [eye_used], and in
    every other case it returns [None]. *)
Theorem eye_position_delivers_nothing (eye_used : Z) (w : World) :
  (streaming w = true ->
   (eye_used = 0 \/ eye_used = 1 \/ eye_used = 2)%Z ->
   eye_position eye_used w = Exc TypeError w)
  /\
  (forall s w', eye_position eye_used w <> Ret (PDict s) w').
Proof.
  split.
  - intros Hs Hu. unfold eye_position, bind, is_streaming. rewrite Hs.
    destruct Hu as [-> | [-> | ->]]; reflexivity.
  - intros s w'. unfold eye_position, bind, is_streaming.
    destruct (streaming w); [|discriminate].
    destruct (Z.eqb eye_used 0); [discriminate|].
    destruct (Z.eqb eye_used 1); [discriminate|].
    destruct (Z.eqb eye_used 2); discriminate.
Qed.

Lemma eye_position_streaming_raises (eye_used : Z) (w : World) :
  streaming w = true ->
  (eye_used = 0 \/ eye_used = 1 \/ eye_used = 2)%Z ->
  eye_position eye_used w = Exc TypeError w.
Proof.
  intros Hs Hu. unfold eye_position, bind, is_streaming. rewrite Hs.
  destruct Hu as [-> | [-> | ->]]; reflexivity.
Qed.

(** X10.  The first experimental fixation call on a streaming tracker, with the
    eye position method of the file: one 2D and one 3D gaze sample are
    polled, [eye_position] raises [TypeError], and the call ends there with
    the three windows still empty. *)
Theorem experimental_start_stops_at_eye_position (eye_used : Z)
    (fuel : nat) (w : World) (r r3 : RawData) (s s3 : Sample)
    (rest rest3 : list RawData) :
  streaming w = true ->
  (eye_used = 0 \/ eye_used = 1 \/ eye_used = 2)%Z ->
  init_run w = true ->
  gaze_samples w = [] ->
  gp3_samples w = [] ->
  eye_samples w = [] ->
  gp_feed w = r :: rest ->
  delivered_gp r = Some s ->
  gp3_feed w = r3 :: rest3 ->
  delivered_gp3 r3 = Some s3 ->
  fuel <> 0%nat ->
  exists w',
    wait_for_fixation_start (eye_position eye_used) true fuel w
    = Exc TypeError w'
    /\ gaze_samples w' = [] /\ gp3_samples w' = [] /\ eye_samples w' = []
    /\ gp_feed w' = rest /\ gp3_feed w' = rest3.
Proof.
  intros Hs Hu Hinit Hg Hg3 He Hf Hd Hf3 Hd3 Hfuel.
  destruct fuel as [|fuel]; [contradiction|].
  assert (Hsample3D : forall w0 : World,
             streaming w0 = true -> gp3_feed w0 = r3 :: rest3 ->
             exists l, sample3D w0
                       = Ret (PDict s3) (set_logs l (set_gp3_feed rest3 w0))).
  { intros w0 Hs0 Hf0.
    unfold sample3D, bind, is_streaming, get_gp3. rewrite Hs0, Hf0.
    destruct r3 as [c t g | e]; cbn in Hd3.
    - injection Hd3 as <-. exists (logs w0). reflexivity.
    - destruct e; try discriminate. injection Hd3 as <-.
      eexists. reflexivity. }
  assert (Hround :
            forall w0 : World,
              streaming w0 = true -> init_run w0 = true ->
              gaze_samples w0 = [] -> gp3_samples w0 = [] ->
              eye_samples w0 = [] ->
              gp_feed w0 = r :: rest -> gp3_feed w0 = r3 :: rest3 ->
              exists w',
                fixation_start_experimental (eye_position eye_used)
                  (S fuel) w0 = Exc TypeError w'
                /\ gaze_samples w' = [] /\ gp3_samples w' = []
                /\ eye_samples w' = []
                /\ gp_feed w' = rest /\ gp3_feed w' = rest3).
  { intros w0 Hs0 Hi0 Hg0 Hg30 He0 Hf0 Hf30.
    cbn [fixation_start_experimental]. unfold bind at 1.
    unfold update_windows. unfold bind at 1. rewrite Hi0.
    cbn [fill_windows]. unfold bind at 1. rewrite Hg0, Hg30, He0.
    cbn [List.length Nat.ltb Nat.leb andb]. unfold bind at 1.
    unfold bind at 1. unfold fetch_and_append. unfold bind at 1.
    unfold fetch_samples. unfold bind at 1.
    destruct (sample_delivers (set_init_run false w0) r rest s Hs0 Hf0 Hd)
      as [l ->].
    unfold bind at 1.
    destruct (Hsample3D (set_logs l (set_gp_feed rest (set_init_run false w0))))
      as [l3 ->]; [exact Hs0 | exact Hf30 |].
    unfold bind at 1.
    rewrite (eye_position_streaming_raises eye_used
               (set_logs l3
                  (set_gp3_feed rest3
                     (set_logs l (set_gp_feed rest (set_init_run false w0)))))
               Hs0 Hu).
    eexists. split; [reflexivity|]. cbn. repeat split; assumption. }
  unfold wait_for_fixation_start. unfold bind at 1. unfold warn_native.
  destruct (String.eqb (eventdetection w) "native"); cbn [negb print].
  - apply Hround; assumption.
  - apply Hround; assumption.
Qed.

(** X11.  [pupil_size] on a streaming tracker.  When the two eyes carry the
    same event index the diameters are returned with the mean of the two
    time stamps.  When the event indices differ nothing is bound to
    [data_dict], and [finally: return data_dict] raises
    [UnboundLocalError].  An [IndexError] of the subscripts is logged and
    answered by the dictionary of sentinels; any other exception is
    replaced by [UnboundLocalError]. *)
Theorem pupil_size_outcomes (w : World) :
  streaming w = true ->
  (forall l tl r tr g avg,
     n_div (n_add tl tr) (n_of_Z 2) = Ok avg ->
     pupil_size (Pd l tl g) (Pd r tr g) w
     = Ret (Some (mkPupilSize l r avg g)) w)
  /\
  (forall l tl gl r tr gr,
     gl <> gr ->
     pupil_size (Pd l tl gl) (Pd r tr gr) w
     = Exc (UnboundLocalError "data_dict") w)
  /\
  (forall right,
     pupil_size (NoPd IndexError) right w
     = Ret (Some (mkPupilSize minus_one minus_one minus_one (-1)))
         (set_logs
            (logs w ++ [LogError "No gaze 3d position data available."]) w))
  /\
  (forall e right,
     e <> IndexError ->
     pupil_size (NoPd e) right w = Exc (UnboundLocalError "data_dict") w).
Proof.
  intros Hs. repeat apply conj.
  - intros l tl r tr g avg Havg.
    unfold pupil_size, bind, is_streaming, pupil_size_try. rewrite Hs.
    cbn [pd_gidx pd_ts pd_value res_bind]. rewrite Z.eqb_refl, Havg.
    reflexivity.
  - intros l tl gl r tr gr Hne.
    unfold pupil_size, bind, is_streaming, pupil_size_try. rewrite Hs.
    cbn [pd_gidx res_bind].
    destruct (Z.eqb_spec gl gr); [contradiction|]. reflexivity.
  - intros right.
    unfold pupil_size, bind, is_streaming, pupil_size_try. rewrite Hs.
    reflexivity.
  - intros e right He.
    unfold pupil_size, bind, is_streaming, pupil_size_try. rewrite Hs.
    destruct e; try reflexivity. contradiction.
Qed.

(** ** Log header *)

Lemma str_length_app (a b : string) :
  String.length (a ++ b) = (String.length a + String.length b)%nat.
Proof. induction a as [|c a IH]; cbn; [reflexivity|]. rewrite IH. reflexivity. Qed.

Lemma str_app_assoc (a b c : string) :
  ((a ++ b) ++ c)%string = (a ++ (b ++ c))%string.
Proof. induction a as [|ch a IH]; cbn; [reflexivity|]. rewrite IH. reflexivity. Qed.

Lemma str_app_nil_r (a : string) : (a ++ "")%string = a.
Proof. induction a as [|ch a IH]; cbn; [reflexivity|]. rewrite IH. reflexivity. Qed.

Lemma drop_last_app (n : nat) (a b : string) :
  n <= String.length b ->
  drop_last n (a ++ b) = (a ++ drop_last n b)%string.
Proof.
  intros Hn. unfold drop_last.
  induction a as [|ch a IH]; [reflexivity|].
  cbn [append String.length].
  replace (S (String.length (a ++ b)) - n)
    with (S (String.length (a ++ b) - n)).
  - cbn [substring]. rewrite IH. reflexivity.
  - rewrite str_length_app. lia.
Qed.

Lemma drop_last_separator : drop_last 2 "; " = "".
Proof. reflexivity. Qed.

Lemma join_sep_app (a b : list string) :
  join_sep (a ++ b) = (join_sep a ++ join_sep b)%string.
Proof.
  induction a as [|c a IH]; [reflexivity|].
  cbn [app join_sep]. rewrite IH, !str_app_assoc. reflexivity.
Qed.

Lemma join_sep_length (c : string) (cols : list string) :
  2 <= String.length (join_sep (c :: cols)).
Proof.
  cbn [join_sep]. rewrite !str_length_app. cbn [String.length]. lia.
Qed.

Lemma drop_last_join_sep (c : string) (cols : list string) :
  drop_last 2 (join_sep (c :: cols)) = String.concat "; " (c :: cols).
Proof.
  revert c. induction cols as [|c' cols IH]; intros c.
  - cbn [join_sep String.concat]. rewrite drop_last_app by (cbn; lia).
    cbn. rewrite str_app_nil_r. reflexivity.
  - change (join_sep (c :: c' :: cols))
      with (c ++ ("; " ++ join_sep (c' :: cols)))%string.
    rewrite drop_last_app
      by (rewrite str_length_app; pose proof (join_sep_length c' cols); lia).
    rewrite drop_last_app by apply join_sep_length.
    rewrite IH. reflexivity.
Qed.

Lemma header_triggers_spec (triggers : list string) :
  forall (header : string) (tv : list (string * option string)),
    fst (header_triggers triggers header tv)
    = (header ++ join_sep triggers)%string.
Proof.
  induction triggers as [|t triggers IH]; intros header tv.
  - cbn. rewrite str_app_nil_r. reflexivity.
  - cbn [header_triggers join_sep]. rewrite IH, !str_app_assoc.
    reflexivity.
Qed.

Lemma get_log_header_text (keys triggers : list string)
    (tv : list (string * option string)) :
  fst (get_log_header keys triggers tv)
  = drop_last 2 (join_sep (log_columns keys triggers)).
Proof.
  unfold get_log_header, log_columns.
  assert (Htr : forall header,
             fst (let '(header0, triggers_values) :=
                    if Nat.ltb 0 (List.length triggers)
                    then header_triggers triggers header tv
                    else (header, tv) in
                  (drop_last 2 header0, triggers_values))
             = drop_last 2 (header ++ join_sep triggers)).
  { intros header. destruct triggers as [|t triggers].
    - cbn. rewrite str_app_nil_r. reflexivity.
    - cbn [List.length Nat.ltb Nat.leb].
      pose proof (header_triggers_spec (t :: triggers) header tv) as Hh.
      destruct (header_triggers (t :: triggers) header tv) as [h tv'].
      cbn in Hh. cbn [fst]. rewrite Hh. reflexivity. }
  rewrite Htr. f_equal.
  rewrite !join_sep_app.
  destruct (str_in "mems" keys), (str_in "gp" keys), (str_in "gp3" keys),
    (str_in "left_eye" keys); reflexivity.
Qed.

(** X12.  The header of the log is the list of column names separated by
    ["; "], with no separator at the end.  The columns of the right eye
    are listed exactly when ['left_eye'] is among the keys: the key
    ['right_eye'] has no effect on the header, as nothing but the
    membership of ['mems'], ['gp'], ['gp3'] and ['left_eye'] has. *)
Theorem log_header_format (keys triggers : list string)
    (tv : list (string * option string)) :
  fst (get_log_header keys triggers tv)
  = String.concat "; " (log_columns keys triggers)
  /\
  (forall keys' tv',
     str_in "mems" keys' = str_in "mems" keys ->
     str_in "gp" keys' = str_in "gp" keys ->
     str_in "gp3" keys' = str_in "gp3" keys ->
     str_in "left_eye" keys' = str_in "left_eye" keys ->
     fst (get_log_header keys' triggers tv')
     = fst (get_log_header keys triggers tv))
  /\
  fst (get_log_header ("right_eye" :: keys) triggers tv)
  = fst (get_log_header keys triggers tv).
Proof.
  repeat apply conj.
  - rewrite get_log_header_text. unfold log_columns.
    cbn [app]. apply drop_last_join_sep.
  - intros keys' tv' Hm Hg Hg3 Hl.
    rewrite !get_log_header_text. unfold log_columns.
    rewrite Hm, Hg, Hg3, Hl. reflexivity.
  - rewrite !get_log_header_text. reflexivity.
Qed.

Lemma dict_get_set_same (key : string) (v : option string)
    (d : list (string * option string)) :
  dict_get key (dict_set key v d) = Ok v.
Proof.
  induction d as [|[k v0] d IH]; cbn.
  - rewrite String.eqb_refl. reflexivity.
  - destruct (String.eqb k key) eqn:E; cbn; rewrite E; [reflexivity|].
    exact IH.
Qed.

Lemma dict_get_set_other (key key' : string) (v : option string)
    (d : list (string * option string)) :
  key' <> key ->
  dict_get key' (dict_set key v d) = dict_get key' d.
Proof.
  intros Hne. induction d as [|[k v0] d IH]; cbn.
  - destruct (String.eqb_spec key key'); [congruence|reflexivity].
  - destruct (String.eqb_spec k key) as [->|Hk]; cbn.
    + destruct (String.eqb_spec key key'); [congruence|reflexivity].
    + destruct (String.eqb k key'); [reflexivity|exact IH].
Qed.

Lemma header_triggers_registers (triggers : list string) :
  forall (header : string) (tv : list (string * option string)) (key : string),
    dict_get key (snd (header_triggers triggers header tv))
    = if str_in key triggers then Ok None else dict_get key tv.
Proof.
  induction triggers as [|t triggers IH]; intros header tv key;
    [reflexivity|].
  cbn [header_triggers]. rewrite IH. unfold str_in. cbn [existsb].
  fold (str_in key triggers).
  destruct (str_in key triggers); [rewrite orb_true_r; reflexivity|].
  rewrite orb_false_r.
  destruct (String.eqb_spec key t) as [->|Hne].
  - apply dict_get_set_same.
  - apply dict_get_set_other. exact Hne.
Qed.

(** X13.  Building the header registers every trigger in
    [self.triggers_values] with the value [None], replacing a value
    received before, and leaves the other entries as they are: looking up
    a listed trigger afterwards never raises [KeyError]. *)
Theorem log_header_registers_triggers (keys triggers : list string)
    (tv : list (string * option string)) (key : string) :
  dict_get key (snd (get_log_header keys triggers tv))
  = if str_in key triggers then Ok None else dict_get key tv.
Proof.
  unfold get_log_header.
  match goal with
  | |- context [header_triggers triggers ?h tv] =>
      pose proof (header_triggers_registers triggers h tv key) as Hreg;
      destruct (header_triggers triggers h tv) as [h' tv'] eqn:Eh
  end.
  destruct triggers as [|t triggers].
  - reflexivity.
  - cbn [List.length Nat.ltb Nat.leb snd]. cbn [snd] in Hreg. exact Hreg.
Qed.

(** ** Saccade start when the PyGaze method runs *)

Lemma getitem_delivered_gp (r : RawData) (s : Sample) :
  delivered_gp r = Some s -> getitem (PDict s) "gp" = Ok (s_coords s).
Proof.
  intros Hd. destruct r as [c t g | e]; cbn in Hd.
  - injection Hd as <-. reflexivity.
  - destruct e; try discriminate. injection Hd as <-. reflexivity.
Qed.

(** The three statements that open the PyGaze methods: poll until a valid
    sample comes, then read the clock. *)
Lemma enters_with_valid_sample {A : Type} (k : pyval -> num -> M A)
    (skipped : list RawData) (fuel : nat) (w : World) (r0 : RawData)
    (anchor : Sample) (rest : list RawData) (t0 : num) (later : list num) :
  streaming w = true ->
  gp_feed w = skipped ++ r0 :: rest ->
  clock_feed w = t0 :: later ->
  Forall polls_invalid skipped ->
  delivered_gp r0 = Some anchor ->
  gp_valid anchor = true ->
  List.length skipped < fuel ->
  exists l,
    bind sample
      (fun pos => bind (wait_valid_gp fuel pos)
         (fun pos => bind clock_get_time (fun t => k pos t))) w
    = k (PDict anchor) t0
        (set_logs l (set_clock_feed later (set_gp_feed rest w))).
Proof.
  intros Hs Hf Hc Hinv Hd Hv Hfuel.
  unfold bind at 1.
  destruct skipped as [|r skipped].
  - destruct (sample_delivers w r0 rest anchor Hs Hf Hd) as [l ->].
    destruct fuel as [|fuel]; try (cbn in Hfuel; lia).
    unfold bind at 1. cbn [wait_valid_gp]. unfold bind at 1.
    rewrite (is_valid_gp_delivered r0 anchor _ Hd), Hv.
    cbn [ret]. unfold bind at 1.
    rewrite (clock_reads _ t0 later) by (cbn; exact Hc).
    exists l. reflexivity.
  - inversion Hinv as [|? ? [s [Hds Hsv]] Hinv']; subst.
    destruct (sample_delivers w r (skipped ++ r0 :: rest) s Hs Hf Hds)
      as [l ->].
    unfold bind at 1.
    destruct (wait_valid_gp_skips skipped fuel
                (set_logs l (set_gp_feed (skipped ++ r0 :: rest) w))
                s r0 anchor rest) as [l' ->]; auto.
    + exists r. exact Hds.
    + cbn in Hfuel. lia.
    + unfold bind at 1.
      rewrite (clock_reads _ t0 later) by (cbn; exact Hc).
      exists l'. reflexivity.
Qed.

(** Rounds in which the polled sample is invalid or equal to the previous
    one: the clock is read, and the previous sample, time and velocity
    stay. *)
Lemma saccade_start_loop_waits (quiet : list RawData) :
  forall (fuel : nat) (w : World) (prevpos : pyval) (t0 v0 : num)
         (rest : list RawData) (ticks later pc : list num),
    streaming w = true ->
    gp_feed w = quiet ++ rest ->
    clock_feed w = ticks ++ later ->
    List.length ticks = List.length quiet ->
    getitem prevpos "gp" = Ok pc ->
    Forall (keeps_still pc) quiet ->
    exists l,
      saccade_start_loop (List.length quiet + fuel) prevpos t0 v0 w
      = saccade_start_loop fuel prevpos t0 v0
          (set_logs l (set_clock_feed later (set_gp_feed rest w))).
Proof.
  induction quiet as [|r quiet IH];
    intros fuel w prevpos t0 v0 rest ticks later pc Hs Hf Hc Hn Hp Hq.
  - destruct ticks; try discriminate. cbn in Hf, Hc.
    exists (logs w). cbn [List.length Nat.add].
    destruct w; cbn in *; subst; reflexivity.
  - destruct ticks as [|t1 ticks]; try discriminate.
    inversion Hq as [|? ? [s [Hds Hcase]] Hq']; subst.
    cbn [List.length Nat.add saccade_start_loop]. unfold bind at 1.
    destruct (sample_delivers w r (quiet ++ rest) s Hs Hf Hds) as [l ->].
    unfold bind at 1.
    rewrite (clock_reads _ t1 (ticks ++ later)) by (cbn; exact Hc).
    unfold bind at 1. unfold valid_and_changed. unfold bind at 1.
    rewrite (is_valid_gp_delivered r s _ Hds).
    destruct (IH fuel
                (set_clock_feed (ticks ++ later)
                   (set_logs l (set_gp_feed (quiet ++ rest) w)))
                prevpos t0 v0 rest ticks later pc) as [l' Hl']; auto.
    destruct Hcase as [Hv | [Hv Hsame]]; rewrite Hv.
    + cbn [ret]. exists l'. rewrite Hl'. reflexivity.
    + rewrite (getitem_delivered_gp r s Hds), Hp. cbn [res_bind].
      rewrite Hsame. cbn [negb lift ret].
      exists l'. rewrite Hl'. reflexivity.
Qed.


(** ** The windows of the experimental detector *)

Lemma sample_keeps_windows : keeps_windows sample.
Proof.
  intros w v w'. unfold sample, bind, is_streaming, get_gp.
  destruct (streaming w).
  - destruct (gp_feed w) as [|r rest]; [discriminate|].
    destruct r as [c t g | e].
    + cbn. intros E. injection E as <- <-. reflexivity.
    + destruct e; cbn; try discriminate.
      intros E. injection E as <- <-. reflexivity.
  - cbn. intros E. injection E as <- <-. reflexivity.
Qed.

Lemma sample3D_keeps_windows : keeps_windows sample3D.
Proof.
  intros w v w'. unfold sample3D, bind, is_streaming, get_gp3.
  destruct (streaming w).
  - destruct (gp3_feed w) as [|r rest]; [discriminate|].
    destruct r as [c t g | e].
    + cbn. intros E. injection E as <- <-. reflexivity.
    + destruct e; cbn; try discriminate.
      intros E. injection E as <- <-. reflexivity.
  - cbn. intros E. injection E as <- <-. reflexivity.
Qed.

Lemma is_valid_sample_keeps_windows (v : pyval) (kind : string) :
  keeps_windows (is_valid_sample v kind).
Proof.
  intros w b w'. unfold is_valid_sample, bind.
  repeat match goal with
         | |- context [if String.eqb kind ?k then _ else _] =>
             destruct (String.eqb kind k)
         end;
    try (destruct (getitem v _) as [c|e]; cbn; [|discriminate];
         destruct (list_eq c _); intros E; injection E as <- <-;
         reflexivity).
  cbn. intros E. injection E as <- <-. reflexivity.
Qed.

Section Windows.

Variable eye : @M num (@pyval num).
Hypothesis eye_keeps_windows : keeps_windows eye.

Lemma fetch_samples_keeps_windows : keeps_windows (fetch_samples eye).
Proof.
  intros w t w'. unfold fetch_samples. unfold bind at 1.
  destruct (sample w) as [g w1| |] eqn:E1; try discriminate.
  unfold bind at 1.
  destruct (sample3D w1) as [p w2| |] eqn:E2; try discriminate.
  unfold bind at 1.
  destruct (eye w2) as [e w3| |] eqn:E3; try discriminate.
  intros E. injection E as <- <-.
  rewrite (eye_keeps_windows _ _ _ E3), (sample3D_keeps_windows _ _ _ E2).
  exact (sample_keeps_windows _ _ _ E1).
Qed.

Lemma retry_fetch_keeps_windows (fuel : nat) (t : pyval * pyval * pyval) :
  keeps_windows (retry_fetch eye fuel t).
Proof.
  revert t. induction fuel as [|fuel IH]; intros [[g p] e] w t' w';
    [discriminate|].
  cbn [retry_fetch]. unfold bind at 1.
  destruct (is_valid_sample g "gp" w) as [b1 w1| |] eqn:E1;
    try discriminate.
  pose proof (is_valid_sample_keeps_windows _ _ _ _ _ E1) as H1.
  destruct b1; [intros E; injection E as <- <-; exact H1|].
  unfold bind at 1.
  destruct (is_valid_sample p "gp3" w1) as [b2 w2| |] eqn:E2;
    try discriminate.
  pose proof (is_valid_sample_keeps_windows _ _ _ _ _ E2) as H2.
  destruct b2; [intros E; injection E as <- <-; congruence|].
  unfold bind at 1.
  destruct (is_valid_sample e "pc" w2) as [b3 w3| |] eqn:E3;
    try discriminate.
  pose proof (is_valid_sample_keeps_windows _ _ _ _ _ E3) as H3.
  destruct b3; [intros E; injection E as <- <-; congruence|].
  unfold bind at 1.
  destruct (fetch_samples eye w3) as [t3 w4| |] eqn:E4; try discriminate.
  pose proof (fetch_samples_keeps_windows _ _ _ E4) as H4.
  intros E. rewrite (IH _ _ _ _ E). congruence.
Qed.

Lemma fetch_and_append_appends (fuel : nat) (w w' : World)
    (t : pyval * pyval * pyval) :
  fetch_and_append eye fuel w = Ret t w' ->
  gaze_samples w' = gaze_samples w ++ [fst (fst t)]
  /\ gp3_samples w' = gp3_samples w ++ [snd (fst t)]
  /\ eye_samples w' = eye_samples w ++ [snd t].
Proof.
  unfold fetch_and_append. unfold bind at 1.
  destruct (fetch_samples eye w) as [t1 w1| |] eqn:E1; try discriminate.
  pose proof (fetch_samples_keeps_windows _ _ _ E1) as H1.
  unfold bind at 1.
  destruct (retry_fetch eye fuel t1 w1) as [[[g p] e] w2| |] eqn:E2;
    try discriminate.
  pose proof (retry_fetch_keeps_windows _ _ _ _ _ E2) as H2.
  unfold bind, append_samples, ret. intros E. injection E as <- <-.
  unfold windows in H1, H2. cbn.
  injection H1 as Hg1 Hp1 He1. injection H2 as Hg2 Hp2 He2.
  repeat split; congruence.
Qed.

Lemma fill_windows_fills (fuel : nat) :
  forall (w w' : World) (k : nat),
    fill_windows eye fuel w = Ret tt w' ->
    List.length (gaze_samples w) = k ->
    List.length (gp3_samples w) = k ->
    List.length (eye_samples w) = k ->
    k <= 3 ->
    List.length (gaze_samples w') = 3%nat
    /\ List.length (gp3_samples w') = 3%nat
    /\ List.length (eye_samples w') = 3%nat
    /\ firstn k (gaze_samples w') = gaze_samples w
    /\ firstn k (gp3_samples w') = gp3_samples w
    /\ firstn k (eye_samples w') = eye_samples w.
Proof.
  induction fuel as [|fuel IH]; intros w w' k; [discriminate|].
  cbn [fill_windows]. unfold bind at 1. intros E Hg Hp He Hk.
  rewrite Hg, Hp, He in E.
  destruct (Nat.ltb_spec k 3) as [Hlt|Hge]; cbn [andb] in E.
  - unfold bind at 1 in E. unfold bind at 1 in E.
    destruct (fetch_and_append eye (S fuel) (set_init_run false w))
      as [t w1| |] eqn:Ef; try discriminate.
    destruct (fetch_and_append_appends _ _ _ _ Ef) as [Hg1 [Hp1 He1]].
    cbn [gaze_samples gp3_samples eye_samples set_init_run] in Hg1, Hp1, He1.
    destruct (IH w1 w' (S k) E) as [Lg [Lp [Le [Fg [Fp Fe]]]]].
    + rewrite Hg1, length_app, Hg. cbn. lia.
    + rewrite Hp1, length_app, Hp. cbn. lia.
    + rewrite He1, length_app, He. cbn. lia.
    + lia.
    + repeat split; try assumption.
      * apply (f_equal (firstn k)) in Fg.
        rewrite firstn_firstn, Nat.min_l in Fg by lia.
        rewrite Fg, Hg1, <- Hg, firstn_app, firstn_all, Nat.sub_diag.
        cbn. apply app_nil_r.
      * apply (f_equal (firstn k)) in Fp.
        rewrite firstn_firstn, Nat.min_l in Fp by lia.
        rewrite Fp, Hp1, <- Hp, firstn_app, firstn_all, Nat.sub_diag.
        cbn. apply app_nil_r.
      * apply (f_equal (firstn k)) in Fe.
        rewrite firstn_firstn, Nat.min_l in Fe by lia.
        rewrite Fe, He1, <- He, firstn_app, firstn_all, Nat.sub_diag.
        cbn. apply app_nil_r.
  - injection E as <-. assert (Hk3 : k = 3%nat) by lia.
    repeat split; try congruence.
    + rewrite <- Hg. apply firstn_all.
    + rewrite <- Hp. apply firstn_all.
    + rewrite <- He. apply firstn_all.
Qed.


End Windows.

End Properties.

(** * The properties on concrete trackers *)

Import Run.

Local Open Scope list_scope.




Lemma is_valid_sample_sentinel_witness :
  is_valid_sample (PDict (gp_sample 100 100 10 1)) "gp" resting
  = Ret true resting
  /\ is_valid_sample (PDict (gp_sample (-1) (-1) (-1) (-1))) "gp" resting
     = Ret false resting
  /\ is_valid_sample no_gp3 "gp3" resting = Ret false resting
  /\ is_valid_sample (eye_at 30 (-20) (-25) 10 1) "pc" resting
     = Ret true resting
  /\ is_valid_sample PNone "left_eye" resting
     = Ret true
         (set_logs
            [LogError "The supplied sample type left_eye is not supported."]
            resting).
Proof.
  destruct (is_valid_sample_sentinel resting) as [Hgp [Hgp3 [Hpc Hother]]].
  split; [exact (Hgp (gp_sample 100 100 10 1) eq_refl)|].
  split; [exact (Hgp (gp_sample (-1) (-1) (-1) (-1)) eq_refl)|].
  split;
    [exact (Hgp3 (mkSample "gp3" [fl (-1); fl (-1); fl (-1)] (fl (-1)) (-1))
              eq_refl)|].
  split;
    [exact (Hpc (mkSample "pc" [fl 30; fl (-20); fl (-25)] (fl 10) 1)
              eq_refl)|].
  exact (Hother PNone "left_eye" eq_refl eq_refl eq_refl).
Defined.

Lemma is_same_event_pairwise_witness :
  is_same_event
    (map PDict [gp_sample 100 100 10 1; gp_sample 101 100 20 2])
    (map PDict [mkSample "gp3" [fl 10; fl 20; fl 900] (fl 10) 1;
                mkSample "gp3" [fl 11; fl 20; fl 900] (fl 20) 2])
    (map PDict [mkSample "pc" [fl 30; fl 20; fl 25] (fl 10) 1;
                mkSample "pc" [fl 30; fl 20; fl 25] (fl 20) 3])
  = Ok false.
Proof.
  destruct (is_same_event_pairwise
              [gp_sample 100 100 10 1; gp_sample 101 100 20 2]
              [mkSample "gp3" [fl 10; fl 20; fl 900] (fl 10) 1;
               mkSample "gp3" [fl 11; fl 20; fl 900] (fl 20) 2]
              [mkSample "pc" [fl 30; fl 20; fl 25] (fl 10) 1;
               mkSample "pc" [fl 30; fl 20; fl 25] (fl 20) 3]
              eq_refl eq_refl) as [b [Hb [_ [Hmismatch _]]]].
  rewrite Hb. f_equal.
  apply (Hmismatch 1%nat _ _ _ eq_refl eq_refl eq_refl).
  right. left. cbn. discriminate.
Defined.



Lemma recording_guards_witness :
  (exists w',
     start_recording recording = Ret tt w'
     /\ current_recording_id w' = Some "rec0"
     /\ calls w' = []
     /\ logs w' = [LogError "The Tobii Pro Glasses is already recording!"])
  /\
  (exists w',
     stop_recording (tracker [] [] []) = Ret tt w'
     /\ current_recording_id w' = None
     /\ calls w' = []
     /\ logs w' = [LogError "There is no recordings started!"])
  /\
  (exists w',
     stop_recording recording = Ret tt w'
     /\ current_recording_id w' = None
     /\ calls w' = [StopRecording "rec0"; WaitUntilRecordingIsDone "rec0"]).
Proof.
  destruct (recording_guards recording) as [Hstart [_ Hstop]].
  destruct (recording_guards (tracker [] [] [])) as [_ [Hidle _]].
  split; [|split].
  - destruct (Hstart "rec0" eq_refl) as [w' [E [Hr [_ [_ [Hc Hl]]]]]].
    exists w'. repeat split; assumption.
  - destruct (Hidle eq_refl) as [w' [E [Hr [_ [_ [Hc Hl]]]]]].
    exists w'. repeat split; assumption.
  - destruct (Hstop "rec0" true eq_refl eq_refl eq_refl)
      as [w' [E [Hr [_ [_ [Hc _]]]]]].
    exists w'. repeat split; assumption.
Defined.

(** * The further properties on concrete trackers *)

Lemma fixation_detectors_need_streaming_witness :
  (exists l,
     wait_for_fixation_start steady_eye false 5 not_streaming
     = Exc TypeError
         (set_logs
            (logs not_streaming ++ l
             ++ [LogError "The eye-tracker is not in capturing mode."])
            not_streaming))
  /\
  (exists l,
     wait_for_fixation_end steady_eye false 5 not_streaming
     = Exc TypeError
         (set_logs
            (logs not_streaming ++ l
             ++ [LogError "The eye-tracker is not in capturing mode."])
            not_streaming)).
Proof.
  refine (fixation_detectors_need_streaming steady_eye 5 not_streaming
            eq_refl _).
  discriminate.
Defined.

Lemma sampling_replaces_other_exceptions_witness :
  sample without_entries
  = Exc (UnboundLocalError "data_dict") (set_gp_feed [] without_entries)
  /\ sample3D without_entries
     = Exc (UnboundLocalError "data_dict") (set_gp3_feed [] without_entries).
Proof.
  assert (Hne : KeyError "gp" <> IndexError) by discriminate.
  assert (Hne3 : KeyError "gp3" <> IndexError) by discriminate.
  split.
  - exact (proj1 (sampling_replaces_other_exceptions without_entries
                    (KeyError "gp") [] eq_refl Hne) eq_refl).
  - exact (proj2 (sampling_replaces_other_exceptions without_entries
                    (KeyError "gp3") [] eq_refl Hne3) eq_refl).
Defined.

Lemma start_recording_outcomes_witness :
  (exists w',
     start_recording (tracker_on a_link) = Ret tt w'
     /\ current_recording_id w' = Some "rec1"
     /\ calls w' = [CreateRecording (Some "part1"); StartRecording "rec1"])
  /\
  (exists w',
     start_recording (tracker_on link_not_starting)
     = Exc (Exception "Error in libtobiiproglasses.TobiiProGlassesController.start_recording: failed to start recording") w'
     /\ current_recording_id w' = Some "rec1")
  /\
  (exists w',
     start_recording (tracker_on link_not_creating) = Exc LinkError w'
     /\ current_recording_id w' = None).
Proof.
  split; [|split].
  - destruct (proj1 (start_recording_outcomes (tracker_on a_link) eq_refl)
                "rec1" eq_refl eq_refl) as [w' [E [Hr [Hc _]]]].
    exists w'. repeat split; assumption.
  - destruct (proj1 (proj2 (start_recording_outcomes
                              (tracker_on link_not_starting) eq_refl))
                "rec1" LinkError eq_refl eq_refl) as [w' [E [Hr _]]].
    exists w'. split; assumption.
  - destruct (proj2 (proj2 (start_recording_outcomes
                              (tracker_on link_not_creating) eq_refl))
                LinkError eq_refl) as [w' [E [Hr _]]].
    exists w'. split; assumption.
Defined.

Lemma start_then_stop_recording_witness :
  exists w',
    bind start_recording (fun _ => stop_recording) (tracker_on a_link)
    = Ret tt w'
    /\ current_recording_id w' = None
    /\ calls w'
       = [CreateRecording (Some "part1"); StartRecording "rec1";
          StopRecording "rec1"; WaitUntilRecordingIsDone "rec1"].
Proof.
  destruct (start_then_stop_recording (tracker_on a_link) "rec1" true
              eq_refl eq_refl eq_refl eq_refl eq_refl)
    as [w' [E [Hr [_ [_ [Hc _]]]]]].
  exists w'. repeat split; assumption.
Defined.

Lemma wait_for_event_dispatch_witness :
  wait_for_event steady_eye 99 5 resting
  = Exc (Exception "Error in libtobii.TobiiTracker.wait_for_event: eventcode 99 is not supported") resting
  /\ wait_for_event steady_eye 3 5 resting
     = Ret NoOutcome (set_logs [Printed "function not supported yet"] resting)
  /\ wait_for_event steady_eye 5 5 resting = Ret NoOutcome resting
  /\ wait_for_event steady_eye 6 5 resting = Exc TypeError resting.
Proof.
  split; [|split].
  - refine (proj1 (wait_for_event_dispatch steady_eye 99 5 resting) _).
    right. reflexivity.
  - refine (proj1 (proj2 (wait_for_event_dispatch steady_eye 3 5 resting)) _).
    left. reflexivity.
  - exact (proj2 (proj2 (wait_for_event_dispatch steady_eye 5 5 resting))
             eq_refl).
Defined.

Lemma dispersion_reports_polled_samples_witness :
  exists ts sp,
    polled_valid (gp_feed resting) sp /\ In ts (clock_feed resting)
    /\ sp = PDict (gp_sample 100 100 10 1) /\ ts = fl 0.
Proof.
  assert (E : wait_for_fixation_start steady_eye false 10 resting
              = Ret (FixStart (fl 0) (PDict (gp_sample 100 100 10 1)))
                  (set_logs [LogError "No gaze position data available."]
                     (set_clock_feed [fl 130]
                        (set_gp_feed [gp_at 400 300 40 2] resting))))
    by (vm_compute; reflexivity).
  destruct (proj1 (dispersion_reports_polled_samples steady_eye 10 resting
                     _ _) E) as [ts [sp [Hr [Hp Ht]]]].
  injection Hr as <- <-.
  exists (fl 0), (PDict (gp_sample 100 100 10 1)).
  repeat split; assumption.
Defined.

Lemma eye_position_delivers_nothing_witness :
  eye_position 0 resting = Exc TypeError resting
  /\ eye_position 2 resting = Exc TypeError resting.
Proof.
  split.
  - refine (proj1 (eye_position_delivers_nothing 0 resting) eq_refl _).
    left. reflexivity.
  - refine (proj1 (eye_position_delivers_nothing 2 resting) eq_refl _).
    right. right. reflexivity.
Defined.

Lemma experimental_start_stops_at_eye_position_witness :
  exists w',
    wait_for_fixation_start (eye_position 0) true 5 dropping_gp3
    = Exc TypeError w'
    /\ gaze_samples w' = [] /\ gp3_samples w' = [] /\ eye_samples w' = []
    /\ List.length (gp_feed w') = 3%nat
    /\ List.length (gp3_feed w') = 3%nat.
Proof.
  destruct (experimental_start_stops_at_eye_position 0 5 dropping_gp3
              (gp_at 100 100 10 1) (gp3_at 10 20 900 10 1)
              (gp_sample 100 100 10 1)
              (mkSample "gp3" [fl 10; fl 20; fl 900] (fl 10) 1)
              [gp_at 101 100 20 1; gp_at 100 101 30 1; gp_at 101 101 40 1]
              [NoData IndexError; gp3_at 11 20 900 30 1;
               Data [fl (-1); fl (-1); fl (-1)] (fl (-1)) (-1)]
              eq_refl (or_introl eq_refl) eq_refl eq_refl eq_refl eq_refl
              eq_refl eq_refl eq_refl eq_refl)
    as [w' [E [Hg [Hp [He [Hf Hf3]]]]]].
  { discriminate. }
  exists w'. repeat split; try assumption.
  - rewrite Hf. reflexivity.
  - rewrite Hf3. reflexivity.
Defined.

Lemma pupil_size_outcomes_witness :
  pupil_size (Pd (fl 3) (fl 10) 7) (Pd (fl 4) (fl 20) 7) resting
  = Ret (Some (mkPupilSize (fl 3) (fl 4) (fl 15) 7)) resting
  /\ pupil_size (Pd (fl 3) (fl 10) 7) (Pd (fl 4) (fl 20) 8) resting
     = Exc (UnboundLocalError "data_dict") resting.
Proof.
  destruct (pupil_size_outcomes resting eq_refl) as [Hsame [Hdiff _]].
  split.
  - exact (Hsame (fl 3) (fl 10) (fl 4) (fl 20) 7%Z (fl 15) eq_refl).
  - apply Hdiff. discriminate.
Defined.


Lemma steady_eye_keeps_windows : keeps_windows steady_eye.
Proof. intros w v w' E. injection E as <- <-. reflexivity. Qed.


Lemma log_header_format_witness :
  fst (get_log_header ["gp"; "right_eye"] ["cue"] [])
  = "ts; gp_x; gp_y; cue"
  /\ fst (get_log_header ["right_eye"; "gp"] ["cue"] [("cue", Some "1")])
     = fst (get_log_header ["gp"] ["cue"] []).
Proof.
  destruct (log_header_format ["gp"] ["cue"] []) as [_ [Hsame _]].
  destruct (log_header_format ["gp"; "right_eye"] ["cue"] [])
    as [Htext _].
  split.
  - rewrite Htext. reflexivity.
  - apply Hsame; reflexivity.
Defined.
